(** * A shallow embedding of the bprof line profiler (src/demo.cpp)

    The profiler is a C++ Python extension.  Python delivers profile and
    trace events to [Module::profile]; each dispatch first runs a "finish"
    routine chosen by the previously recorded instruction kind, attributing
    the elapsed time since the previous dispatch, and then a "profile"
    routine for the incoming event.

    Modelling choices:
    - durations ([std::chrono::nanoseconds]) are integers of nanoseconds;
    - a [PyCodeObject*] is an integer identity;
    - [size_t] arithmetic wraps modulo 2^64 ([to_size_t]);
    - [std::vector::at] and [std::unordered_map::at] raise
      [std::out_of_range] ([OutOfRange]); [std::stack::top] or [pop] on an
      empty stack is undefined behaviour ([EmptyStack]); both abort the
      dispatch, there is no handler anywhere in the extension;
    - the [std::stack<FrameState>] is a list whose head is the top;
    - the clock reading [elapsed()] is an argument of each dispatch;
    - [inspect.getsourcelines] is a field of the module state: a function
      from code identity to (source lines, first line number);
    - the trace printed by [BaseFunction::add_elapsed_internal]
      ("Internal: ...") is not modelled: it touches no accumulator. *)

From Stdlib Require Import ZArith Lia.
From stdpp Require Import base gmap strings list.

Abbreviation duration := Z (only parsing).
Abbreviation code := Z (only parsing).

(** size_t wrap-around. *)
Definition to_size_t (z : Z) : Z := z mod 2^64.

(** ** Failures and the error monad *)

Inductive failure := OutOfRange | EmptyStack.

Inductive result (A : Type) : Type :=
| Ok (a : A)
| Err (f : failure).
Arguments Ok {A} a.
Arguments Err {A} f.

Global Instance result_ret : MRet result := fun A a => Ok a.
Global Instance result_bind : MBind result := fun A B k m =>
  match m with Ok a => k a | Err f => Err f end.

(** [std::vector::at(i)] read. *)
Definition vec_at {A} (i : nat) (v : list A) : result A :=
  match v !! i with Some x => Ok x | None => Err OutOfRange end.

(** [std::vector::at(i)] followed by an in-place update of that slot. *)
Definition vec_at_update {A} (g : A -> A) (i : nat) (v : list A) : result (list A) :=
  if decide (i < length v) then Ok (alter g i v) else Err OutOfRange.

(** The same, for an index computed in size_t arithmetic (a [Z] in
    [0, 2^64)); the bound check happens before the conversion. *)
Definition vec_at_update_size_t {A} (g : A -> A) (i : Z) (v : list A)
  : result (list A) :=
  if decide (i < Z.of_nat (length v))%Z then Ok (alter g (Z.to_nat i) v)
  else Err OutOfRange.

(** [std::unordered_map::at(k)]. *)
Definition map_at {K V} `{Countable K} (k : K) (mp : gmap K V) : result V :=
  match mp !! k with Some x => Ok x | None => Err OutOfRange end.

(** ** Records of callables *)

(** [class BaseFunction]: a foreign (C) callable. *)
Record BaseFunction := mkBase {
  bf_name : string;
  bf_internal_time : duration   (* internal_time_, returned by overhead() *)
}.

Definition BaseFunction_add_elapsed_internal (time : duration) (b : BaseFunction)
  : BaseFunction :=
  mkBase (bf_name b) (bf_internal_time b + time).

(** [class Function : public BaseFunction]: an interpreted callable. *)
Record Function := mkFunction {
  fn_name : string;
  fn_internal_time : duration;
  fn_code : code;
  fn_lines : list string;
  fn_line_time : list duration;            (* line_time_ (external) *)
  fn_line_time_internal : list duration    (* line_time_internal_ *)
}.

(** The constructor: both accumulator vectors are resized to the line count. *)
Definition Function_new (name : string) (lines : list string) (c : code) : Function :=
  let n_lines := length lines in
  mkFunction name 0 c lines (replicate n_lines 0%Z) (replicate n_lines 0%Z).

(** [BaseFunction::add_elapsed_internal] reached through [Function]. *)
Definition Function_add_overhead (time : duration) (f : Function) : Function :=
  mkFunction (fn_name f) (fn_internal_time f + time) (fn_code f) (fn_lines f)
    (fn_line_time f) (fn_line_time_internal f).

(** [Function::add_elapsed]: [line_time_.at(line_number) += time]. *)
Definition Function_add_elapsed (line_number : nat) (time : duration) (f : Function)
  : result Function :=
  lt ← vec_at_update (Z.add time) line_number (fn_line_time f);
  Ok (mkFunction (fn_name f) (fn_internal_time f) (fn_code f) (fn_lines f)
        lt (fn_line_time_internal f)).

(** [Function::add_elapsed_internal(size_t, ...)]:
    [line_time_internal_.at(line_number) += time]. *)
Definition Function_add_elapsed_internal (line_number : nat) (time : duration)
  (f : Function) : result Function :=
  lti ← vec_at_update (Z.add time) line_number (fn_line_time_internal f);
  Ok (mkFunction (fn_name f) (fn_internal_time f) (fn_code f) (fn_lines f)
        (fn_line_time f) lti).

(** ** Per-invocation state *)

(** [class LineState]; value-initialised to zero by [vector::resize]. *)
Record LineState := mkLine { ls_internal : duration; ls_external : duration }.

Definition LineState_zero : LineState := mkLine 0 0.
Definition add_internal (dur : duration) (l : LineState) : LineState :=
  mkLine (ls_internal l + dur) (ls_external l).
Definition add_external (dur : duration) (l : LineState) : LineState :=
  mkLine (ls_internal l) (ls_external l + dur).

(** [class FrameState]. *)
Record FrameState := mkFrame {
  fs_starting_line : Z;     (* size_t *)
  fs_current_line : Z;      (* size_t, 0 until set_current_line *)
  fs_key : code;
  fs_lines : list LineState;
  fs_internal : duration
}.

Definition FrameState_new (c : code) (n_lines : nat) (starting_line : Z) : FrameState :=
  mkFrame starting_line 0 c (replicate n_lines LineState_zero) 0.

(** The index used by [current_line()]: [current_line_-starting_line_-1]
    in size_t arithmetic. *)
Definition line_index (fr : FrameState) : Z :=
  to_size_t (fs_current_line fr - fs_starting_line fr - 1).

(** [current_line().g(...)]: [lines_.at(line_index)] updated by [g]. *)
Definition update_current_line (g : LineState -> LineState) (fr : FrameState)
  : result FrameState :=
  ls ← vec_at_update_size_t g (line_index fr) (fs_lines fr);
  Ok (mkFrame (fs_starting_line fr) (fs_current_line fr) (fs_key fr) ls
        (fs_internal fr)).

Definition set_current_line (current_line : Z) (fr : FrameState) : FrameState :=
  mkFrame (fs_starting_line fr) current_line (fs_key fr) (fs_lines fr)
    (fs_internal fr).

(** [FrameState::add_internal]. *)
Definition frame_add_internal (dur : duration) (fr : FrameState) : FrameState :=
  mkFrame (fs_starting_line fr) (fs_current_line fr) (fs_key fr) (fs_lines fr)
    (fs_internal fr + dur).

(** [FrameState::total_time]: the lines only, not [internal_]. *)
Definition total_time (fr : FrameState) : duration :=
  foldl (fun result line => result + ls_internal line + ls_external line)%Z
    0%Z (fs_lines fr).

(** ** The Python side of an event *)

Record PyFrame := mkPyFrame {
  f_code : code;
  f_lineno : Z;          (* PyFrame_GetLineNumber *)
  co_name : string       (* PyFrame_GetName *)
}.

(** The [arg] of a C-call event: an object and its [PyObject_Str]. *)
Record PyObj := mkPyObj { obj_id : Z; obj_str : string }.

Inductive Trace :=
| PyTrace_CALL | PyTrace_EXCEPTION | PyTrace_LINE | PyTrace_RETURN
| PyTrace_C_CALL | PyTrace_C_EXCEPTION | PyTrace_C_RETURN | PyTrace_OPCODE.

Inductive Instruction :=
| kOrigin | kLine | kCall | kReturn | kException
| kCCall | kCReturn | kCException | kInvalid.

Global Instance Instruction_eq_dec : EqDecision Instruction.
Proof. solve_decision. Defined.

(** ** The module state *)

Record Module := mkModule {
  inspect_ : code -> list string * Z;   (* inspect.getsourcelines *)
  profiling : bool;                     (* profile/trace hooks installed *)
  functions_ : gmap code Function;
  c_functions_ : gmap string BaseFunction;
  frame_stack_ : list FrameState;       (* head = top() *)
  last_instruction_ : Instruction;
  last_c_name_ : string
}.

Definition set_functions (fs : gmap code Function) (m : Module) : Module :=
  mkModule (inspect_ m) (profiling m) fs (c_functions_ m) (frame_stack_ m)
    (last_instruction_ m) (last_c_name_ m).
Definition set_c_functions (cfs : gmap string BaseFunction) (m : Module) : Module :=
  mkModule (inspect_ m) (profiling m) (functions_ m) cfs (frame_stack_ m)
    (last_instruction_ m) (last_c_name_ m).
Definition set_stack (st : list FrameState) (m : Module) : Module :=
  mkModule (inspect_ m) (profiling m) (functions_ m) (c_functions_ m) st
    (last_instruction_ m) (last_c_name_ m).
Definition set_last (i : Instruction) (m : Module) : Module :=
  mkModule (inspect_ m) (profiling m) (functions_ m) (c_functions_ m)
    (frame_stack_ m) i (last_c_name_ m).
Definition set_last_c_name (n : string) (m : Module) : Module :=
  mkModule (inspect_ m) (profiling m) (functions_ m) (c_functions_ m)
    (frame_stack_ m) (last_instruction_ m) n.
Definition set_profiling (b : bool) (m : Module) : Module :=
  mkModule (inspect_ m) b (functions_ m) (c_functions_ m) (frame_stack_ m)
    (last_instruction_ m) (last_c_name_ m).

(** [Module::Module]. *)
Definition Module_new (inspect : code -> list string * Z) : Module :=
  mkModule inspect false ∅ ∅ [] kInvalid EmptyString.

(** [frame_stack_.top().g(...)]. *)
Definition modify_top (g : FrameState -> result FrameState) (m : Module)
  : result Module :=
  match frame_stack_ m with
  | [] => Err EmptyStack
  | top :: rest => top' ← g top; Ok (set_stack (top' :: rest) m)
  end.

(** ** Registration *)

(** [Module::get_lines]: the loop copies indices [1 .. n_lines-1] of the
    list returned by [inspect.getsourcelines], dropping the first one; the
    starting line goes through [PyLong_AsUnsignedLongLong]. *)
Definition get_lines (m : Module) (frame : PyFrame) : list string * Z :=
  let '(lines_py, line_start) := inspect_ m (f_code frame) in
  (drop 1 lines_py, to_size_t line_start).

(** [Module::add_function]. *)
Definition add_function (frame : PyFrame) (m : Module) : Module :=
  let c := f_code frame in
  match functions_ m !! c with
  | Some _ => m
  | None =>
      let lines := (get_lines m frame).1 in
      set_functions (<[c := Function_new (co_name frame) lines c]> (functions_ m)) m
  end.

(** [Module::add_c_function]: [emplace] leaves an existing entry alone. *)
Definition add_c_function (name : string) (m : Module) : Module :=
  match c_functions_ m !! name with
  | Some _ => m
  | None => set_c_functions (<[name := mkBase name 0]> (c_functions_ m)) m
  end.

(** [Module::emplace_frame]. *)
Definition emplace_frame (frame : PyFrame) (m : Module) : Module :=
  let '(lines, starting_line) := get_lines m frame in
  set_stack (FrameState_new (f_code frame) (length lines) starting_line
               :: frame_stack_ m) m.

(** ** The begin routines ([profile_*]) *)

Definition profile_call (frame : PyFrame) (m : Module) : Module :=
  set_last kCall (emplace_frame frame (add_function frame m)).

Definition profile_line (frame : PyFrame) (m : Module) : Module :=
  let m1 := set_last kLine m in
  match frame_stack_ m1 with
  | [] => m1
  | top :: rest =>
      set_stack (set_current_line (to_size_t (f_lineno frame)) top :: rest) m1
  end.

Definition profile_c_call (arg : PyObj) (m : Module) : Module :=
  let name := obj_str arg in
  set_last kCCall (add_c_function name (set_last_c_name name m)).

Definition profile_return (m : Module) : Module := set_last kReturn m.

Definition profile_c_return (m : Module) : Module := set_last kCReturn m.

(** ** The finish routines ([finish_*]) *)

Definition finish_origin (frame : PyFrame) (m : Module) : Module := m.

Definition finish_line (elapsed : duration) (m : Module) : result Module :=
  match frame_stack_ m with
  | [] => Ok m
  | _ => modify_top (update_current_line (add_internal elapsed)) m
  end.

Definition finish_call (frame : PyFrame) (elapsed : duration) (m : Module)
  : result Module :=
  f ← map_at (f_code frame) (functions_ m);
  Ok (set_functions (<[f_code frame := Function_add_overhead elapsed f]>
                       (functions_ m)) m).

Definition finish_ccall (elapsed : duration) (m : Module) : result Module :=
  cf ← map_at (last_c_name_ m) (c_functions_ m);
  let m1 := set_c_functions
              (<[last_c_name_ m := BaseFunction_add_elapsed_internal elapsed cf]>
                 (c_functions_ m)) m in
  modify_top (update_current_line (add_external elapsed)) m1.

Definition finish_creturn (elapsed : duration) (m : Module) : result Module :=
  modify_top (fun top => Ok (frame_add_internal elapsed top)) m.

(** The loop of [pop_frame]: [i] is initialised to 0 and never advanced. *)
Fixpoint fold_lines (i : nat) (lines : list LineState) (function : Function)
  : result Function :=
  match lines with
  | [] => Ok function
  | line :: lines' =>
      f1 ← Function_add_elapsed i (ls_external line) function;
      f2 ← Function_add_elapsed_internal i (ls_internal line) f1;
      fold_lines i lines' f2
  end.

(** [Module::pop_frame]. *)
Definition pop_frame (m : Module) : result Module :=
  match frame_stack_ m with
  | [] => Err EmptyStack
  | frame :: rest =>
      function ← map_at (fs_key frame) (functions_ m);
      let function1 := Function_add_overhead (fs_internal frame) function in
      function2 ← fold_lines 0 (fs_lines frame) function1;
      let total := total_time frame in
      let m1 := set_stack rest
                  (set_functions (<[fs_key frame := function2]> (functions_ m)) m) in
      match rest with
      | [] => Ok m1
      | _ => modify_top (update_current_line (add_external total)) m1
      end
  end.

Definition finish_return (elapsed : duration) (m : Module) : result Module :=
  m1 ← modify_top (fun top => Ok (frame_add_internal elapsed top)) m;
  pop_frame m1.

(** ** Dispatch: [Module::profile] *)

(** First switch: keyed by the previously recorded instruction. *)
Definition finish (frame : PyFrame) (elapsed : duration) (m : Module)
  : result Module :=
  match last_instruction_ m with
  | kOrigin => Ok (finish_origin frame m)
  | kLine => finish_line elapsed m
  | kCall => finish_call frame elapsed m
  | kReturn => finish_return elapsed m
  | kException => Ok m
  | kCCall => finish_ccall elapsed m
  | kCReturn => finish_creturn elapsed m
  | kCException => Ok m
  | kInvalid => Ok m
  end.

(** Second switch: keyed by the incoming event. *)
Definition begin (what : Trace) (frame : PyFrame) (arg : PyObj) (m : Module)
  : Module :=
  match what with
  | PyTrace_LINE => profile_line frame m
  | PyTrace_CALL => profile_call frame m
  | PyTrace_RETURN => profile_return m
  | PyTrace_C_CALL => profile_c_call arg m
  | PyTrace_C_RETURN => profile_c_return m
  | PyTrace_EXCEPTION => m
  | PyTrace_C_EXCEPTION => profile_c_return m
  | PyTrace_OPCODE => m
  end.

(** [Module::profile]; [elapsed] is [last_instruction_end_ -
    last_instruction_start_], the time since the previous dispatch ended. *)
Definition profile (what : Trace) (frame : PyFrame) (arg : PyObj)
  (elapsed : duration) (m : Module) : result Module :=
  m1 ← finish frame elapsed m;
  Ok (begin what frame arg m1).

(** ** Control surface *)

Definition start (m : Module) : Module := set_profiling true (set_last kOrigin m).
Definition stop (m : Module) : Module := set_profiling false m.

(** One delivered event.  Hooks only fire while installed. *)
Record Event := mkEvent {
  ev_what : Trace; ev_frame : PyFrame; ev_arg : PyObj; ev_elapsed : duration
}.

Definition deliver (ev : Event) (m : Module) : result Module :=
  if profiling m
  then profile (ev_what ev) (ev_frame ev) (ev_arg ev) (ev_elapsed ev) m
  else Ok m.

Fixpoint run (evs : list Event) (m : Module) : result Module :=
  match evs with
  | [] => Ok m
  | ev :: evs' => m1 ← deliver ev m; run evs' m1
  end.

(** ** Concrete inputs used by the witnesses and counterexamples *)

Definition ms (n : Z) : duration := (n * 1000000)%Z.

(** [inspect.getsourcelines] for two callables: [f] (code 1, defined at
    line 10) and [main] (code 2, defined at line 1). *)
Definition demo_source (c : code) : list string * Z :=
  if Z.eqb c 1 then (["def f():"; "    a = [1]"; "    b = len(a)"], 10%Z)
  else (["def main():"; "    f()"; "    g()"], 1%Z).

Definition fr_f (line : Z) : PyFrame := mkPyFrame 1 line "f".
Definition fr_main (line : Z) : PyFrame := mkPyFrame 2 line "main".
Definition no_arg : PyObj := mkPyObj 0 EmptyString.
Definition len_obj : PyObj := mkPyObj 7 "<built-in function len>".

Definition demo_started : Module := start (Module_new demo_source).

Definition ev (w : Trace) (fr : PyFrame) (e : duration) : Event :=
  mkEvent w fr no_arg e.

Definition record_of (r : result Module) (c : code) : option Function :=
  match r with Ok m => functions_ m !! c | Err _ => None end.

Definition stack_of (r : result Module) : option (list FrameState) :=
  match r with Ok m => Some (frame_stack_ m) | Err _ => None end.

(** Event scripts. *)

(** [f] runs line 11 for 3ns and line 12 for 2ns, then returns to [main]. *)
Definition C1_events : list Event :=
  [ev PyTrace_CALL (fr_f 10) 0; ev PyTrace_LINE (fr_f 11) 5;
   ev PyTrace_LINE (fr_f 12) 3; ev PyTrace_RETURN (fr_f 12) 2;
   ev PyTrace_LINE (fr_main 3) 1].

(** The scenario [Line(L1), Call(f), Line(f), Return] inside [main],
    followed by the next line of [main]. *)
Definition C2_prefix : list Event :=
  [ev PyTrace_CALL (fr_main 1) 0; ev PyTrace_LINE (fr_main 2) 1;
   ev PyTrace_CALL (fr_f 10) (ms 10); ev PyTrace_LINE (fr_f 11) (ms 5);
   ev PyTrace_RETURN (fr_f 11) (ms 2)].
Definition C2_events : list Event := C2_prefix ++ [ev PyTrace_LINE (fr_main 3) 1].

(** A foreign call of [main] that raises, then the next line. *)
Definition C3_c_events : list Event :=
  [ev PyTrace_CALL (fr_main 1) 0; ev PyTrace_LINE (fr_main 2) 1;
   mkEvent PyTrace_C_CALL (fr_main 2) len_obj 1;
   ev PyTrace_C_EXCEPTION (fr_main 2) 3; ev PyTrace_LINE (fr_main 3) 4].

(** An exception event on a line of [main], then the next line. *)
Definition C3_py_events : list Event :=
  [ev PyTrace_CALL (fr_main 1) 0; ev PyTrace_LINE (fr_main 2) 1;
   ev PyTrace_EXCEPTION (fr_main 2) 2; ev PyTrace_LINE (fr_main 3) 4].

(** A frame of [f] that calls [len] before any line event of its own (a
    generator resumed in the middle of [b = len((yield))]). *)
Definition C4_events : list Event :=
  [ev PyTrace_CALL (fr_f 10) 0; mkEvent PyTrace_C_CALL (fr_f 12) len_obj 1;
   ev PyTrace_C_RETURN (fr_f 12) 2].

(** Top-level code calling [len] right after [start()], no frame pushed. *)
Definition C4_top_events : list Event :=
  [ev PyTrace_LINE (fr_main 2) 0; mkEvent PyTrace_C_CALL (fr_main 2) len_obj 1;
   ev PyTrace_C_RETURN (fr_main 2) 2].

Definition top_frame (r : result Module) : option FrameState :=
  stack_of r ≫= head.

(** * General lemmas about the engine *)

Lemma bind_Ok {A B} (a : A) (k : A -> result B) : (x ← Ok a; k x) = k a.
Proof. reflexivity. Qed.

Lemma bind_Ok_inv {A B} (m : result A) (k : A -> result B) (b : B) :
  (x ← m; k x) = Ok b -> exists a, m = Ok a /\ k a = Ok b.
Proof. destruct m; simpl; [eauto | discriminate]. Qed.

Lemma profile_Ok_inv w fr a e m m' :
  profile w fr a e m = Ok m' ->
  exists m1, finish fr e m = Ok m1 /\ m' = begin w fr a m1.
Proof.
  unfold profile. intros H. apply bind_Ok_inv in H as (m1 & H1 & H2).
  injection H2 as <-. eauto.
Qed.

Lemma vec_at_update_size_t_in {A} (g : A -> A) (i : Z) (v : list A) :
  (0 <= i < Z.of_nat (length v))%Z ->
  vec_at_update_size_t g i v = Ok (alter g (Z.to_nat i) v).
Proof.
  intros Hi. unfold vec_at_update_size_t. rewrite decide_True by lia. done.
Qed.

Lemma line_index_nonneg fr : (0 <= line_index fr)%Z.
Proof. unfold line_index, to_size_t. apply Z.mod_pos_bound. lia. Qed.

Lemma update_current_line_in g fr :
  (line_index fr < Z.of_nat (length (fs_lines fr)))%Z ->
  update_current_line g fr =
    Ok (mkFrame (fs_starting_line fr) (fs_current_line fr) (fs_key fr)
          (alter g (Z.to_nat (line_index fr)) (fs_lines fr)) (fs_internal fr)).
Proof.
  intros H. unfold update_current_line.
  rewrite vec_at_update_size_t_in; [done|].
  pose proof (line_index_nonneg fr). lia.
Qed.

Lemma profile_c_call_c_functions arg m :
  c_functions_ (profile_c_call arg m) =
    match c_functions_ m !! obj_str arg with
    | Some _ => c_functions_ m
    | None => <[obj_str arg := mkBase (obj_str arg) 0]> (c_functions_ m)
    end.
Proof.
  unfold profile_c_call, add_c_function. simpl.
  destruct (c_functions_ m !! obj_str arg); reflexivity.
Qed.

Lemma profile_c_call_fields arg m :
  frame_stack_ (profile_c_call arg m) = frame_stack_ m /\
  functions_ (profile_c_call arg m) = functions_ m /\
  last_instruction_ (profile_c_call arg m) = kCCall /\
  last_c_name_ (profile_c_call arg m) = obj_str arg /\
  is_Some (c_functions_ (profile_c_call arg m) !! obj_str arg).
Proof.
  rewrite profile_c_call_c_functions.
  unfold profile_c_call, add_c_function. simpl.
  destruct (c_functions_ m !! obj_str arg) eqn:E; simpl;
    repeat split; eauto; rewrite lookup_insert_eq; eauto.
Qed.

(** * Claims *)

(** ** C1 *)

(** C1 (code defect): folding an invocation into its record is not
    index-aligned.  In [pop_frame] the index [i] stays 0, so both lines of
    [f] (3ns on line 11, 2ns on line 12) land in [line_time_internal_[0]]:
    the record reads [5; 0] instead of [3; 2]. *)
Theorem C1_fold_not_index_aligned :
  record_of (run C1_events demo_started) 1 =
    Some (mkFunction "f" 6 1 ["    a = [1]"; "    b = len(a)"] [0%Z; 0%Z] [5%Z; 0%Z]).
Proof. vm_compute. reflexivity. Qed.

(** ** C2 *)

(** C2 (counterexample): in the scenario [Line(L1), Call(f), Line(f),
    Return] with 10ms, 5ms and 2ms, processing the Return folds nothing:
    [f]'s frame is still on top of the stack and [main]'s line has no
    external time.  When the next event arrives, [main]'s line gains 2ms of
    external time, not 7ms. *)
Theorem C2_caller_external_not_7ms :
  (exists fr rest, stack_of (run C2_prefix demo_started) = Some (fr :: rest)
     /\ fs_key fr = 1%Z
     /\ (rest !! 0%nat) ≫= (fun c => fs_lines c !! 0%nat) = Some (mkLine (ms 10) 0))
  /\ ((top_frame (run C2_events demo_started)) ≫= (fun c => fs_lines c !! 0%nat))
       = Some (mkLine (ms 10) (ms 2))
  /\ ms 2 <> ms 7.
Proof.
  split; [|split].
  - vm_compute. eexists _, _. split; [reflexivity|]. split; reflexivity.
  - vm_compute. reflexivity.
  - vm_compute. discriminate.
Qed.

(** ** C3 *)

(** C3 (counterexample): an exception-bracketed interval is attributed.
    After a foreign call that raises, the 4ns up to the next line go to the
    overhead of [main]'s frame; after a Python exception event on line 2,
    the 4ns up to the next line go to line 2's internal time (2 + 4ns in
    total, versus 2ns if it were dropped). *)
Theorem C3_exception_interval_attributed :
  fmap fs_internal (top_frame (run C3_c_events demo_started)) = Some 4%Z
  /\ ((top_frame (run C3_py_events demo_started)) ≫= (fun c => fs_lines c !! 0%nat))
       = Some (mkLine 6 0).
Proof. split; vm_compute; reflexivity. Qed.

(** ** C4 *)

(** C4 (code defect): the foreign-call finish rule reads [current_line()]
    without a guard.  A frame of [f] pushed by a call event and calling
    [len] before any line event of its own makes [current_line_ -
    starting_line_ - 1] wrap to 2^64 - 11, and [lines_.at] throws; with no
    frame on the stack at all, [top()] is read on an empty stack. *)
Theorem C4_ccall_current_line_unguarded :
  run C4_events demo_started = Err OutOfRange
  /\ run C4_top_events demo_started = Err EmptyStack.
Proof. split; vm_compute; reflexivity. Qed.

(** ** C5 *)

(** C5: a ForeignCall, then a ForeignReturn after 3ms, then a Line event
    after 1ms, with a caller frame on top whose current line is a valid
    index: the foreign record's overhead grows by 3ms, the caller's current
    line gains 3ms of external time, and the caller frame's own overhead
    ([internal_]) grows by 1ms. *)
Theorem C5_foreign_call_bracketing (m0 m1 : Module) (fr0 frR frL : PyFrame)
  (arg argR argL : PyObj) (e0 : duration) (top : FrameState)
  (rest : list FrameState) :
  profile PyTrace_C_CALL fr0 arg e0 m0 = Ok m1 ->
  frame_stack_ m1 = top :: rest ->
  (line_index top < Z.of_nat (length (fs_lines top)))%Z ->
  exists m2 m3 top3 b,
    profile PyTrace_C_RETURN frR argR (ms 3) m1 = Ok m2 /\
    profile PyTrace_LINE frL argL (ms 1) m2 = Ok m3 /\
    c_functions_ m1 !! obj_str arg = Some b /\
    c_functions_ m3 !! obj_str arg =
      Some (mkBase (bf_name b) (bf_internal_time b + ms 3)) /\
    frame_stack_ m3 = top3 :: rest /\
    fs_lines top3 !! Z.to_nat (line_index top) =
      add_external (ms 3) <$> fs_lines top !! Z.to_nat (line_index top) /\
    fs_internal top3 = (fs_internal top + ms 1)%Z.
Proof.
  intros Hp Hst Hidx.
  apply profile_Ok_inv in Hp as (m0' & _ & ->).
  change (begin PyTrace_C_CALL fr0 arg m0') with (profile_c_call arg m0') in *.
  destruct (profile_c_call_fields arg m0') as (Hs & _ & Hl & Hn & [b Hb]).
  set (m1 := profile_c_call arg m0') in *. clearbody m1.
  eexists _, _, _, b. split; [|split].
  - unfold profile, finish. rewrite Hl. unfold finish_ccall, map_at.
    rewrite Hn, Hb, bind_Ok. unfold modify_top. simpl. rewrite Hst.
    rewrite update_current_line_in by done. reflexivity.
  - unfold profile, finish. simpl. unfold finish_creturn, modify_top. simpl.
    reflexivity.
  - simpl. split; [done|]. split; [rewrite ?Hn, lookup_insert_eq; done|].
    split; [reflexivity|]. simpl. split; [|done].
    apply list_lookup_alter_eq.
Qed.

Definition ok_or (d : Module) (r : result Module) : Module :=
  match r with Ok m => m | Err _ => d end.

(** [main] has run line 2; then [len] is called from that line. *)
Definition C5_m0 : Module :=
  ok_or demo_started
    (run [ev PyTrace_CALL (fr_main 1) 0; ev PyTrace_LINE (fr_main 2) 1] demo_started).
Definition C5_m1 : Module :=
  ok_or demo_started (profile PyTrace_C_CALL (fr_main 2) len_obj 1 C5_m0).
Definition C5_top : FrameState :=
  match frame_stack_ C5_m1 with t :: _ => t | [] => FrameState_new 0 0 0 end.
Definition C5_rest : list FrameState := tail (frame_stack_ C5_m1).

Lemma C5_witness :
  profile PyTrace_C_CALL (fr_main 2) len_obj 1 C5_m0 = Ok C5_m1 /\
  exists m2 m3 top3 b,
    profile PyTrace_C_RETURN (fr_main 2) no_arg (ms 3) C5_m1 = Ok m2 /\
    profile PyTrace_LINE (fr_main 3) no_arg (ms 1) m2 = Ok m3 /\
    c_functions_ C5_m1 !! obj_str len_obj = Some b /\
    c_functions_ m3 !! obj_str len_obj =
      Some (mkBase (bf_name b) (bf_internal_time b + ms 3)) /\
    frame_stack_ m3 = top3 :: C5_rest /\
    fs_lines top3 !! Z.to_nat (line_index C5_top) =
      add_external (ms 3) <$> fs_lines C5_top !! Z.to_nat (line_index C5_top) /\
    fs_internal top3 = (fs_internal C5_top + ms 1)%Z.
Proof.
  split; [vm_compute; reflexivity|].
  apply (C5_foreign_call_bracketing C5_m0 C5_m1 (fr_main 2) (fr_main 2) (fr_main 3)
           len_obj no_arg no_arg 1 C5_top C5_rest);
    vm_compute; reflexivity.
Defined.

(** ** C6 *)

(** C6: foreign records are keyed by the printed name of the target.  The
    C-call dispatch depends on the target only through [PyObject_Str], so
    two targets printing alike are indistinguishable; registering a name
    that already has a record keeps that record; the foreign-call finish
    rule adds the interval to the record of the pending name and leaves the
    records of every other name alone.  Chained: a C-call dispatch on
    target [a] makes [obj_str a] the pending name and leaves under that key
    the record that was there (or a fresh one named [obj_str a]); the next
    dispatch's finish adds its interval to exactly that record, and every
    record under another name is the one the C-call found. *)
Theorem C6_foreign_records_keyed_by_printed_name (m m' : Module) (fr : PyFrame)
  (a b : PyObj) (e : duration) :
  (obj_str a = obj_str b ->
     profile PyTrace_C_CALL fr a e m = profile PyTrace_C_CALL fr b e m) /\
  (forall n, c_functions_ (add_c_function n m) !! n =
               Some (default (mkBase n 0) (c_functions_ m !! n)) /\
             forall n', n' <> n ->
               c_functions_ (add_c_function n m) !! n' = c_functions_ m !! n') /\
  (finish_ccall e m = Ok m' ->
     (exists r, c_functions_ m !! last_c_name_ m = Some r /\
        c_functions_ m' !! last_c_name_ m =
          Some (mkBase (bf_name r) (bf_internal_time r + e))) /\
     forall n', n' <> last_c_name_ m -> c_functions_ m' !! n' = c_functions_ m !! n') /\
  (forall fr' e' m1 m2,
     profile PyTrace_C_CALL fr a e m = Ok m1 -> finish fr' e' m1 = Ok m2 ->
     exists m0 r, finish fr e m = Ok m0 /\
       r = default (mkBase (obj_str a) 0) (c_functions_ m0 !! obj_str a) /\
       last_c_name_ m1 = obj_str a /\
       c_functions_ m1 !! obj_str a = Some r /\
       c_functions_ m2 !! obj_str a =
         Some (mkBase (bf_name r) (bf_internal_time r + e')) /\
       forall n', n' <> obj_str a -> c_functions_ m2 !! n' = c_functions_ m0 !! n').
Proof.
  split; [|split; [|split]].
  - intros Hab. unfold profile. destruct (finish fr e m); [|reflexivity].
    simpl. unfold profile_c_call. rewrite Hab. reflexivity.
  - intros n. unfold add_c_function.
    destruct (c_functions_ m !! n) eqn:E; simpl.
    + split; [done|]. intros; done.
    + split; [by rewrite lookup_insert_eq|].
      intros n' Hn'. by rewrite lookup_insert_ne by congruence.
  - unfold finish_ccall, map_at. intros H.
    destruct (c_functions_ m !! last_c_name_ m) as [r|] eqn:E; [|discriminate].
    rewrite bind_Ok in H. unfold modify_top in H. simpl in H.
    destruct (frame_stack_ m) as [|t rest]; [discriminate|].
    apply bind_Ok_inv in H as (t' & _ & H). injection H as <-. simpl.
    split; [exists r; split; [done|by rewrite lookup_insert_eq]|].
    intros n' Hn'. by rewrite lookup_insert_ne by congruence.
  - intros fr' e' m1 m2 H1 H2. apply profile_Ok_inv in H1 as (m0 & H0 & ->).
    cbn [begin] in H2 |- *.
    destruct (profile_c_call_fields a m0) as (_ & _ & Hl & Hn & _).
    set (r := default (mkBase (obj_str a) 0) (c_functions_ m0 !! obj_str a)).
    assert (Hr : c_functions_ (profile_c_call a m0) !! obj_str a = Some r).
    { rewrite profile_c_call_c_functions. unfold r.
      destruct (c_functions_ m0 !! obj_str a) eqn:E; simpl;
        [exact E|apply lookup_insert_eq]. }
    assert (Ho : forall n', n' <> obj_str a ->
              c_functions_ (profile_c_call a m0) !! n' = c_functions_ m0 !! n').
    { intros n' Hn'. rewrite profile_c_call_c_functions.
      destruct (c_functions_ m0 !! obj_str a); [reflexivity|].
      by rewrite lookup_insert_ne by congruence. }
    unfold finish in H2. rewrite Hl in H2.
    unfold finish_ccall, map_at in H2. rewrite Hn, Hr in H2.
    rewrite bind_Ok in H2. unfold modify_top in H2.
    destruct (frame_stack_ (set_c_functions _ _)) as [|t rest]; [discriminate|].
    apply bind_Ok_inv in H2 as (t' & _ & H2). injection H2 as <-.
    exists m0, r. split; [exact H0|]. split; [reflexivity|]. split; [exact Hn|].
    split; [exact Hr|]. cbn [c_functions_ set_stack set_c_functions].
    split; [apply lookup_insert_eq|].
    intros n' Hn'. rewrite lookup_insert_ne by congruence. exact (Ho n' Hn').
Qed.

(** A second object printing like [len_obj]. *)
Definition len_obj' : PyObj := mkPyObj 8 "<built-in function len>".
Definition C6_m2 : Module :=
  ok_or demo_started (finish_ccall 3 C5_m1).

Lemma C6_witness :
  profile PyTrace_C_CALL (fr_main 2) len_obj 1 C5_m0 =
    profile PyTrace_C_CALL (fr_main 2) len_obj' 1 C5_m0 /\
  finish_ccall 3 C5_m1 = Ok C6_m2 /\
  (exists r, c_functions_ C5_m1 !! last_c_name_ C5_m1 = Some r /\
    c_functions_ C6_m2 !! last_c_name_ C5_m1 =
      Some (mkBase (bf_name r) (bf_internal_time r + 3))) /\
  profile PyTrace_C_CALL (fr_main 2) len_obj 1 C5_m0 = Ok C5_m1 /\
  finish (fr_main 2) 3 C5_m1 = Ok C6_m2 /\
  last_c_name_ C5_m1 = obj_str len_obj /\
  exists r, c_functions_ C5_m1 !! obj_str len_obj = Some r /\
    c_functions_ C6_m2 !! obj_str len_obj =
      Some (mkBase (bf_name r) (bf_internal_time r + 3)).
Proof.
  destruct (C6_foreign_records_keyed_by_printed_name C5_m0 C6_m2 (fr_main 2)
              len_obj len_obj' 1) as [H1 _].
  destruct (C6_foreign_records_keyed_by_printed_name C5_m1 C6_m2 (fr_main 2)
              len_obj len_obj' 3) as (_ & _ & H3 & _).
  destruct (C6_foreign_records_keyed_by_printed_name C5_m0 C6_m2 (fr_main 2)
              len_obj len_obj' 1) as (_ & _ & _ & H4).
  split; [apply H1; reflexivity|].
  assert (Hf : finish_ccall 3 C5_m1 = Ok C6_m2) by (vm_compute; reflexivity).
  split; [exact Hf|]. split; [apply (proj1 (H3 Hf))|].
  assert (Hp : profile PyTrace_C_CALL (fr_main 2) len_obj 1 C5_m0 = Ok C5_m1)
    by (vm_compute; reflexivity).
  assert (Hf' : finish (fr_main 2) 3 C5_m1 = Ok C6_m2) by (vm_compute; reflexivity).
  destruct (H4 (fr_main 2) 3%Z C5_m1 C6_m2 Hp Hf')
    as (m0 & r & _ & _ & Hn & Hr & Hr' & _).
  split; [exact Hp|]. split; [exact Hf'|]. split; [exact Hn|].
  exists r. split; [exact Hr|exact Hr'].
Defined.

(** ** Stack effect of one dispatch *)

Definition pending (m : Module) : nat :=
  if decide (last_instruction_ m = kReturn) then 1 else 0.

Definition pushes (w : Trace) : nat :=
  match w with PyTrace_CALL => 1 | _ => 0 end.

Lemma modify_top_Ok g m m' :
  modify_top g m = Ok m' ->
  exists t rest t', frame_stack_ m = t :: rest /\ g t = Ok t' /\
                    m' = set_stack (t' :: rest) m.
Proof.
  unfold modify_top. destruct (frame_stack_ m) as [|t rest]; [discriminate|].
  intros H. apply bind_Ok_inv in H as (t' & Ht & H). injection H as <-. eauto 6.
Qed.

Lemma pop_frame_Ok m m' :
  pop_frame m = Ok m' ->
  exists fr rest, frame_stack_ m = fr :: rest /\
    length (frame_stack_ m') = length rest /\
    profiling m' = profiling m /\ inspect_ m' = inspect_ m.
Proof.
  unfold pop_frame. destruct (frame_stack_ m) as [|fr rest] eqn:E; [discriminate|].
  intros H. apply bind_Ok_inv in H as (f & _ & H).
  apply bind_Ok_inv in H as (f2 & _ & H).
  exists fr, rest. split; [done|].
  destruct rest as [|t rest'].
  - injection H as <-. done.
  - apply modify_top_Ok in H as (t0 & r0 & t' & Hs & _ & ->). simpl in *.
    injection Hs as <- <-. done.
Qed.

Ltac close_len := simpl; repeat split; try reflexivity; lia.

Lemma finish_Ok fr e m m1 :
  finish fr e m = Ok m1 ->
  (length (frame_stack_ m1) + pending m = length (frame_stack_ m))%nat /\
  profiling m1 = profiling m /\ inspect_ m1 = inspect_ m.
Proof.
  unfold finish, pending, finish_origin.
  destruct (last_instruction_ m) eqn:El; simpl; intros H;
    try (injection H as <-; close_len).
  - (* kLine *)
    unfold finish_line in H. destruct (frame_stack_ m) eqn:Es.
    + injection H as <-. rewrite ?Es. close_len.
    + apply modify_top_Ok in H as (t & r & t' & Hs & _ & ->). simpl.
      rewrite Es in Hs. injection Hs as <- <-. close_len.
  - (* kCall *)
    unfold finish_call in H. apply bind_Ok_inv in H as (f & _ & H).
    injection H as <-. close_len.
  - (* kReturn *)
    unfold finish_return in H. apply bind_Ok_inv in H as (m2 & H2 & H).
    apply modify_top_Ok in H2 as (t & r & t' & Hs & _ & ->).
    apply pop_frame_Ok in H as (fr' & rest & Hs' & Hl & Hp & Hi).
    simpl in *. injection Hs' as <- <-. rewrite Hs, Hl, Hp, Hi. close_len.
  - (* kCCall *)
    unfold finish_ccall in H. apply bind_Ok_inv in H as (cf & _ & H).
    apply modify_top_Ok in H as (t & r & t' & Hs & _ & ->). simpl in *.
    rewrite Hs. close_len.
  - (* kCReturn *)
    unfold finish_creturn in H.
    apply modify_top_Ok in H as (t & r & t' & Hs & _ & ->). simpl in *.
    rewrite Hs. close_len.
Qed.

Lemma emplace_frame_eq fr m :
  emplace_frame fr m =
    set_stack (FrameState_new (f_code fr) (length (get_lines m fr).1)
                 (get_lines m fr).2 :: frame_stack_ m) m.
Proof. unfold emplace_frame. destruct (get_lines m fr); reflexivity. Qed.

Lemma begin_fields w fr a m :
  length (frame_stack_ (begin w fr a m)) = (length (frame_stack_ m) + pushes w)%nat /\
  profiling (begin w fr a m) = profiling m /\
  inspect_ (begin w fr a m) = inspect_ m.
Proof.
  destruct w; simpl; try close_len.
  - unfold profile_call. rewrite emplace_frame_eq. unfold add_function.
    destruct (functions_ m !! f_code fr); simpl; close_len.
  - unfold profile_line. simpl. destruct (frame_stack_ m) eqn:E; simpl; rewrite ?E; close_len.
  - unfold add_c_function. simpl.
    destruct (c_functions_ m !! obj_str a); simpl; close_len.
Qed.

(** The kinds after which a dispatch records a new previous kind. *)
Definition records_kind (w : Trace) : Prop :=
  w <> PyTrace_EXCEPTION /\ w <> PyTrace_OPCODE.

Lemma begin_pending w fr a m :
  records_kind w ->
  pending (begin w fr a m) = match w with PyTrace_RETURN => 1%nat | _ => 0%nat end.
Proof.
  intros [H1 H2]. unfold pending.
  destruct w; simpl; try congruence; try done.
  unfold profile_line. simpl. destruct (frame_stack_ m); reflexivity.
Qed.

Lemma profile_step w fr a e m m' :
  records_kind w -> profile w fr a e m = Ok m' ->
  (length (frame_stack_ m') + pending m = length (frame_stack_ m) + pushes w)%nat /\
  pending m' = match w with PyTrace_RETURN => 1%nat | _ => 0%nat end /\
  profiling m' = profiling m.
Proof.
  intros Hk H. apply profile_Ok_inv in H as (m1 & Hf & ->).
  apply finish_Ok in Hf as (Hl & Hp & _).
  destruct (begin_fields w fr a m1) as (Hb & Hbp & _).
  rewrite Hb, Hbp, begin_pending by done. split; [lia|done].
Qed.

Lemma run_app l1 l2 m :
  run (l1 ++ l2) m = (m1 ← run l1 m; run l2 m1).
Proof.
  revert m. induction l1 as [|ev l1 IH]; intros m; simpl; [done|].
  destruct (deliver ev m); simpl; [apply IH|done].
Qed.

Lemma run_stopped evs m : profiling m = false -> run evs m = Ok m.
Proof.
  intros Hp. induction evs as [|ev evs IH]; simpl; [done|].
  unfold deliver. rewrite Hp. simpl. exact IH.
Qed.

(** The event kinds of a nested sequence other than call and return. *)
Definition simple_kind (w : Trace) : Prop :=
  w = PyTrace_LINE \/ w = PyTrace_C_CALL \/ w = PyTrace_C_RETURN \/
  w = PyTrace_C_EXCEPTION.

(** Properly nested event sequences: every call is closed by its return. *)
Inductive nested : list Event -> Prop :=
| nested_nil : nested []
| nested_simple ev evs :
    simple_kind (ev_what ev) -> nested evs -> nested (ev :: evs)
| nested_call c body r evs :
    ev_what c = PyTrace_CALL -> ev_what r = PyTrace_RETURN ->
    nested body -> nested evs -> nested (c :: body ++ r :: evs).

(** Depth of the stack once the pending pop of a return is done. *)
Definition settled_depth (m : Module) : Z :=
  (Z.of_nat (length (frame_stack_ m)) - Z.of_nat (pending m))%Z.

Lemma deliver_step ev m m' :
  profiling m = true -> records_kind (ev_what ev) -> deliver ev m = Ok m' ->
  settled_depth m' = (settled_depth m + Z.of_nat (pushes (ev_what ev))
                      - Z.of_nat (pending m'))%Z /\
  pending m' = match ev_what ev with PyTrace_RETURN => 1%nat | _ => 0%nat end /\
  profiling m' = true.
Proof.
  unfold deliver, settled_depth. intros Hp Hk H. rewrite Hp in H.
  apply profile_step in H as (Hl & Hpe & Hpr); [|done].
  split; [|split; congruence]. lia.
Qed.

Lemma nested_settled evs m m' :
  nested evs -> profiling m = true -> run evs m = Ok m' ->
  settled_depth m' = settled_depth m /\ profiling m' = true.
Proof.
  intros Hn. revert m m'.
  induction Hn as [|ev evs Hs Hn IH|c body r evs Hc Hr Hb IHb Hn IHn];
    intros m m' Hp H.
  - injection H as <-. done.
  - simpl in H. apply bind_Ok_inv in H as (m1 & H1 & H).
    assert (Hk : records_kind (ev_what ev)).
    { unfold records_kind. destruct Hs as [ -> | [ -> | [ -> | -> ]]]; split; discriminate. }
    apply deliver_step in H1 as (Hd & Hpe & Hp1); [|done|done].
    destruct (IH m1 m' Hp1 H) as [-> ->]. split; [|done].
    rewrite Hd, Hpe. destruct Hs as [ -> | [ -> | [ -> | -> ]]]; simpl; lia.
  - simpl in H. apply bind_Ok_inv in H as (m1 & H1 & H).
    rewrite run_app in H. apply bind_Ok_inv in H as (m2 & H2 & H).
    simpl in H. apply bind_Ok_inv in H as (m3 & H3 & H).
    apply deliver_step in H1 as (Hd1 & Hpe1 & Hp1);
      [|done|rewrite Hc; split; discriminate].
    destruct (IHb m1 m2 Hp1 H2) as [Hd2 Hp2].
    apply deliver_step in H3 as (Hd3 & Hpe3 & Hp3);
      [|done|rewrite Hr; split; discriminate].
    destruct (IHn m3 m' Hp3 H) as [-> ->]. split; [|done].
    rewrite Hd3, Hpe3, Hr. rewrite Hd2, Hd1, Hpe1, Hc. simpl. lia.
Qed.

(** Along a nested sequence the settled depth never drops below its
    starting value, at any prefix. *)
Lemma nested_prefix_settled evs :
  nested evs -> forall k m mk, profiling m = true -> run (take k evs) m = Ok mk ->
  (settled_depth m <= settled_depth mk)%Z.
Proof.
  induction 1 as [|ev evs Hs Hn IH|c body r evs Hc Hr Hb IHb Hn IHn];
    intros k m mk Hp H.
  - rewrite take_nil in H. injection H as <-. lia.
  - destruct k as [|k]; [injection H as <-; lia|].
    simpl in H. apply bind_Ok_inv in H as (m1 & H1 & H).
    assert (Hk : records_kind (ev_what ev)).
    { unfold records_kind. destruct Hs as [ -> | [ -> | [ -> | -> ]]]; split; discriminate. }
    apply deliver_step in H1 as (Hd & Hpe & Hp1); [|done|done].
    pose proof (IH k m1 mk Hp1 H) as Hle.
    rewrite Hd, Hpe in Hle.
    destruct Hs as [E | [E | [E | E]]]; rewrite E in Hle; simpl in Hle; lia.
  - destruct k as [|k]; [injection H as <-; lia|].
    simpl in H. apply bind_Ok_inv in H as (m1 & H1 & H).
    apply deliver_step in H1 as (Hd1 & Hpe1 & Hp1);
      [|done|rewrite Hc; split; discriminate].
    rewrite Hc in Hd1, Hpe1. rewrite Hpe1 in Hd1. simpl in Hd1.
    rewrite firstn_app, run_app in H. apply bind_Ok_inv in H as (m2 & H2 & H).
    destruct (k - length body)%nat as [|j] eqn:Ek.
    + injection H as <-. pose proof (IHb k m1 m2 Hp1 H2). lia.
    + rewrite firstn_all2 in H2 by lia.
      destruct (nested_settled body m1 m2 Hb Hp1 H2) as [Hd2 Hp2].
      simpl in H. apply bind_Ok_inv in H as (m3 & H3 & H).
      apply deliver_step in H3 as (Hd3 & Hpe3 & Hp3);
        [|done|rewrite Hr; split; discriminate].
      rewrite Hr in Hd3, Hpe3. rewrite Hpe3 in Hd3. simpl in Hd3.
      pose proof (IHn j m3 mk Hp3 H). lia.
Qed.

Lemma vec_at_update_not_EmptyStack {A} (g : A -> A) i v :
  vec_at_update g i v <> Err EmptyStack.
Proof. unfold vec_at_update. destruct (decide _); discriminate. Qed.

Lemma fold_lines_not_EmptyStack i ls f : fold_lines i ls f <> Err EmptyStack.
Proof.
  revert f. induction ls as [|l ls IH]; intros f; simpl; [discriminate|].
  unfold Function_add_elapsed.
  destruct (vec_at_update _ i (fn_line_time f)) as [lt|[]] eqn:E1; simpl;
    [|discriminate|intros _; exact (vec_at_update_not_EmptyStack _ _ _ E1)].
  unfold Function_add_elapsed_internal. simpl.
  destruct (vec_at_update _ i (fn_line_time_internal f)) as [lti|[]] eqn:E2; simpl;
    [apply IH|discriminate|intros _; exact (vec_at_update_not_EmptyStack _ _ _ E2)].
Qed.

Lemma update_current_line_not_EmptyStack g t : update_current_line g t <> Err EmptyStack.
Proof.
  unfold update_current_line, vec_at_update_size_t. destruct (decide _); discriminate.
Qed.

(** With a frame on the stack, the pop run after a Return may fail only on
    a missing record or an index out of range, never on an empty stack. *)
Lemma finish_return_nonempty fr e m :
  last_instruction_ m = kReturn -> frame_stack_ m <> [] ->
  finish fr e m <> Err EmptyStack.
Proof.
  intros Hl Hs. unfold finish. rewrite Hl. unfold finish_return, modify_top.
  destruct (frame_stack_ m) as [|t rest] eqn:E; [done|]. rewrite bind_Ok, bind_Ok.
  unfold pop_frame. simpl. unfold map_at.
  destruct (functions_ m !! fs_key t) as [r|]; simpl; [|discriminate].
  destruct (fold_lines 0 (fs_lines t) _) as [r'|f] eqn:Ef; simpl.
  - destruct rest as [|t2 rest']; [discriminate|].
    unfold modify_top. simpl.
    destruct (update_current_line _ t2) as [t2'|f'] eqn:Eu; simpl; [discriminate|].
    intros H. injection H as ->. exact (update_current_line_not_EmptyStack _ _ Eu).
  - intros H. injection H as ->. exact (fold_lines_not_EmptyStack _ _ _ Ef).
Qed.

(** ** C7 *)

(** C7 (as the code does it): each dispatch pops the frame of a preceding
    Return in its finish phase and pushes one frame in its begin phase if
    the incoming event is a Call; a pop that would hit an empty stack
    aborts the dispatch; a nested sequence processed from an empty
    stack with no pending return leaves the stack empty, except for the
    one frame of a final Return, which is popped by the next dispatch; and
    along such a sequence the stack is never popped while empty: at every
    prefix whose last event is a Return, a frame is on the stack, so the
    next dispatch's pop cannot fail on an empty stack. *)
Theorem C7_stack_discipline :
  (forall w fr a e m m', records_kind w -> profile w fr a e m = Ok m' ->
     (length (frame_stack_ m') + pending m = length (frame_stack_ m) + pushes w)%nat
     /\ pending m' = match w with PyTrace_RETURN => 1%nat | _ => 0%nat end) /\
  (forall w fr a e m, last_instruction_ m = kReturn -> frame_stack_ m = [] ->
     profile w fr a e m = Err EmptyStack) /\
  (forall evs m m', nested evs -> frame_stack_ m = [] ->
     last_instruction_ m <> kReturn -> run evs m = Ok m' ->
     length (frame_stack_ m') = pending m') /\
  (forall evs m, nested evs -> frame_stack_ m = [] -> last_instruction_ m <> kReturn ->
     forall k mk, run (take k evs) m = Ok mk -> last_instruction_ mk = kReturn ->
     frame_stack_ mk <> [] /\ forall fr e, finish fr e mk <> Err EmptyStack).
Proof.
  split; [|split; [|split]].
  - intros w fr a e m m' Hk H.
    destruct (profile_step w fr a e m m' Hk H) as (H1 & H2 & _). split; assumption.
  - intros w fr a e m Hl Hs. unfold profile, finish. rewrite Hl.
    unfold finish_return, modify_top. rewrite Hs. reflexivity.
  - intros evs m m' Hn Hs Hl H.
    assert (Hpm : pending m = 0%nat).
    { unfold pending. destruct (decide _); done. }
    destruct (profiling m) eqn:Hp.
    + destruct (nested_settled evs m m' Hn Hp H) as [Hd _].
      unfold settled_depth in Hd. rewrite Hs, Hpm in Hd. simpl in Hd. lia.
    + rewrite run_stopped in H by done. injection H as <-.
      rewrite Hs, Hpm. done.
  - intros evs m Hn Hs Hl k mk H Hlk.
    assert (Hne : frame_stack_ mk <> []).
    { destruct (profiling m) eqn:Hp.
      + pose proof (nested_prefix_settled evs Hn k m mk Hp H) as Hle.
        unfold settled_depth, pending in Hle. rewrite Hs in Hle.
        destruct (decide (last_instruction_ m = kReturn)); [done|].
        destruct (decide (last_instruction_ mk = kReturn)); [|done].
        simpl in Hle. intros E. rewrite E in Hle. simpl in Hle. lia.
      + rewrite run_stopped in H by done. injection H as <-. done. }
    split; [exact Hne|]. intros fr e. exact (finish_return_nonempty fr e mk Hlk Hne).
Qed.

(** [f] is called from top-level code and returns; nothing follows. *)
Definition C7_events : list Event :=
  [ev PyTrace_CALL (fr_f 10) 0; ev PyTrace_LINE (fr_f 11) 5;
   ev PyTrace_RETURN (fr_f 11) 2].

(** C7 (counterexample): after the nested sequence [Call(f), Line(f),
    Return] has been processed from an empty stack, [f]'s frame is still
    on the stack: the depth is 1, not 0. *)
Theorem C7_depth_not_zero_after_return :
  fmap length (stack_of (run C7_events demo_started)) = Some 1%nat.
Proof. vm_compute. reflexivity. Qed.

Lemma C7_witness :
  nested C1_events /\
  length (frame_stack_ (ok_or demo_started (run C1_events demo_started))) =
    pending (ok_or demo_started (run C1_events demo_started)) /\
  last_instruction_ (ok_or demo_started (run (take 4 C1_events) demo_started)) = kReturn /\
  frame_stack_ (ok_or demo_started (run (take 4 C1_events) demo_started)) <> [].
Proof.
  assert (Hn : nested C1_events).
  { unfold C1_events.
    apply (nested_call _ [ev PyTrace_LINE (fr_f 11) 5; ev PyTrace_LINE (fr_f 12) 3]
             _ [ev PyTrace_LINE (fr_main 3) 1]); try reflexivity.
    - constructor; [left; reflexivity|]. constructor; [left; reflexivity|].
      constructor.
    - constructor; [left; reflexivity|]. constructor. }
  split; [exact Hn|]. split.
  - apply (proj1 (proj2 (proj2 C7_stack_discipline)) C1_events demo_started _ Hn);
      [reflexivity | discriminate | vm_compute; reflexivity].
  - assert (Hl : last_instruction_ (ok_or demo_started (run (take 4 C1_events) demo_started))
                 = kReturn) by (vm_compute; reflexivity).
    split; [exact Hl|].
    apply (proj2 (proj2 (proj2 C7_stack_discipline)) C1_events demo_started Hn
             eq_refl ltac:(discriminate) 4); [vm_compute; reflexivity|exact Hl].
Defined.

(** ** C8 *)

(** C8: [stop()] followed by [start()] is [start()] alone: it keeps every
    interpreted and foreign record (name, overhead, per-line vectors) and
    the stack, and later events run on that same store. *)
Theorem C8_stop_start_keeps_store (m : Module) :
  start (stop m) = start m /\
  functions_ (start (stop m)) = functions_ m /\
  c_functions_ (start (stop m)) = c_functions_ m /\
  frame_stack_ (start (stop m)) = frame_stack_ m /\
  forall evs, run evs (start (stop m)) = run evs (start m).
Proof.
  assert (H : start (stop m) = start m) by reflexivity.
  rewrite H. repeat split.
Qed.

(** ** The report *)

Inductive sink := Stdout | Destination (path : string).

Definition endl : string := String (Ascii.ascii_of_nat 10) EmptyString.

Section Report.

(** How [std::cout] prints [d.count()/1e9] (a double). *)
Variable fmt_seconds : duration -> string.

Definition cat (ss : list string) : string := foldr String.append EmptyString ss.

(** The inner loop of [Module::dump], for [i] from [i0] on, [n] times. *)
Fixpoint dump_lines (n i : nat) (function : Function) : result (list string) :=
  match n with
  | O => Ok []
  | S n' =>
      external ← vec_at i (fn_line_time function);
      internal ← vec_at i (fn_line_time_internal function);
      line ← vec_at i (fn_lines function);
      let total := (external + internal)%Z in
      rest ← dump_lines n' (S i) function;
      Ok (cat [fmt_seconds total; "("; fmt_seconds internal; "/";
               fmt_seconds external; ")"; ": "; line] :: rest)
  end.

Fixpoint dump_functions (fs : list (code * Function)) : result (list string) :=
  match fs with
  | [] => Ok []
  | (_, function) :: fs' =>
      body ← dump_lines (length (fn_lines function)) 0 function;
      rest ← dump_functions fs';
      Ok ((cat ["Name: "; fn_name function; ", ";
                fmt_seconds (fn_internal_time function); endl] :: body) ++ rest)
  end.

Definition dump_c_functions (cfs : list (string * BaseFunction)) : list string :=
  map (fun p => cat ["Name: "; bf_name p.2; ", "; fmt_seconds (bf_internal_time p.2);
                     endl]) cfs.

(** [Module::dump]: the writes it performs and its return value.  Both
    maps are walked in their iteration order. *)
Definition dump (path : string) (m : Module) : result (list (sink * string) * Z) :=
  fs ← dump_functions (map_to_list (functions_ m));
  let cs := dump_c_functions (map_to_list (c_functions_ m)) in
  Ok (map (fun s => (Stdout, s)) (fs ++ cs), 0%Z).

(** ** C9 *)

(** C9: the report does not depend on the destination argument: for any
    two destinations it performs the same writes and returns the same
    value; every write goes to standard output and the value is 0. *)
Theorem C9_dump_ignores_destination (p1 p2 : string) (m : Module) :
  dump p1 m = dump p2 m /\
  forall ws r, dump p1 m = Ok (ws, r) ->
    r = 0%Z /\ Forall (fun w => w.1 = Stdout) ws.
Proof.
  split; [reflexivity|].
  intros ws r. unfold dump.
  destruct (dump_functions _); simpl; [|discriminate].
  intros H. injection H as <- <-. split; [done|].
  apply Forall_forall. intros w Hw. apply list_elem_of_fmap in Hw as (s & -> & _).
  done.
Qed.

End Report.

Definition fmt_demo (d : duration) : string := "0.0".
Definition C9_ws : list (sink * string) :=
  match dump fmt_demo "out.txt" C5_m1 with Ok (ws, _) => ws | Err _ => [] end.

Lemma C9_witness :
  dump fmt_demo "out.txt" C5_m1 = dump fmt_demo "/dev/null" C5_m1 /\
  dump fmt_demo "out.txt" C5_m1 = Ok (C9_ws, 0%Z) /\
  Forall (fun w => w.1 = Stdout) C9_ws.
Proof.
  destruct (C9_dump_ignores_destination fmt_demo "out.txt" "/dev/null" C5_m1)
    as [H1 H2].
  assert (Hd : dump fmt_demo "out.txt" C5_m1 = Ok (C9_ws, 0%Z))
    by (vm_compute; reflexivity).
  split; [exact H1|]. split; [exact Hd|]. exact (proj2 (H2 _ _ Hd)).
Defined.

(** ** Line vectors and source snapshots *)

Definition fn_shape (r : Function) : list string * nat * nat :=
  (fn_lines r, length (fn_line_time r), length (fn_line_time_internal r)).

Definition fs_shape (fr : FrameState) : Z * code * nat :=
  (fs_starting_line fr, fs_key fr, length (fs_lines fr)).

(** Every record and every frame agrees with the source snapshot. *)
Definition record_ok (m : Module) (c : code) (r : Function) : Prop :=
  fn_lines r = drop 1 (inspect_ m c).1 /\
  length (fn_line_time r) = length (fn_lines r) /\
  length (fn_line_time_internal r) = length (fn_lines r).

Definition frame_ok (m : Module) (fr : FrameState) : Prop :=
  fs_starting_line fr = to_size_t (inspect_ m (fs_key fr)).2 /\
  length (fs_lines fr) = length (drop 1 (inspect_ m (fs_key fr)).1) /\
  is_Some (functions_ m !! fs_key fr).

Definition store_ok (m : Module) : Prop :=
  (forall c r, functions_ m !! c = Some r -> record_ok m c r) /\
  Forall (frame_ok m) (frame_stack_ m).

(** States reachable from a fresh module with a given source provider. *)
Inductive reachable (inspect : code -> list string * Z) : Module -> Prop :=
| reach_new : reachable inspect (Module_new inspect)
| reach_start m : reachable inspect m -> reachable inspect (start m)
| reach_stop m : reachable inspect m -> reachable inspect (stop m)
| reach_deliver ev m m' :
    reachable inspect m -> deliver ev m = Ok m' -> reachable inspect m'.

Lemma reachable_inspect insp m : reachable insp m -> inspect_ m = insp.
Proof.
  induction 1 as [| m _ IH | m _ IH | ev m m' _ IH H]; try done.
  unfold deliver in H. destruct (profiling m).
  - apply profile_Ok_inv in H as (m1 & Hf & ->).
    apply finish_Ok in Hf as (_ & _ & Hi).
    destruct (begin_fields ev.(ev_what) ev.(ev_frame) ev.(ev_arg) m1) as (_ & _ & ->).
    congruence.
  - injection H as <-. done.
Qed.

Lemma Function_add_elapsed_shape i t f f' :
  Function_add_elapsed i t f = Ok f' -> fn_shape f' = fn_shape f.
Proof.
  unfold Function_add_elapsed, vec_at_update.
  case_decide; [|discriminate]. simpl. intros Hok. injection Hok as <-.
  unfold fn_shape. simpl. by rewrite length_alter.
Qed.

Lemma Function_add_elapsed_internal_shape i t f f' :
  Function_add_elapsed_internal i t f = Ok f' -> fn_shape f' = fn_shape f.
Proof.
  unfold Function_add_elapsed_internal, vec_at_update.
  case_decide; [|discriminate]. simpl. intros Hok. injection Hok as <-.
  unfold fn_shape. simpl. by rewrite length_alter.
Qed.

Lemma fold_lines_shape i ls f f' :
  fold_lines i ls f = Ok f' -> fn_shape f' = fn_shape f.
Proof.
  revert f. induction ls as [|l ls IH]; intros f H; simpl in H.
  - injection H as <-. done.
  - apply bind_Ok_inv in H as (f1 & H1 & H').
    apply bind_Ok_inv in H' as (f2 & H2 & H3).
    rewrite (IH _ H3), (Function_add_elapsed_internal_shape _ _ _ _ H2).
    apply (Function_add_elapsed_shape _ _ _ _ H1).
Qed.

Lemma update_current_line_shape g fr fr' :
  update_current_line g fr = Ok fr' -> fs_shape fr' = fs_shape fr.
Proof.
  unfold update_current_line, vec_at_update_size_t.
  case_decide; [|discriminate]. simpl. intros Hok. injection Hok as <-.
  unfold fs_shape. simpl. by rewrite length_alter.
Qed.

Lemma get_lines_eq m fr :
  get_lines m fr =
    (drop 1 (inspect_ m (f_code fr)).1, to_size_t (inspect_ m (f_code fr)).2).
Proof. unfold get_lines. destruct (inspect_ m (f_code fr)); reflexivity. Qed.

Lemma frame_ok_shape m fr fr' :
  fs_shape fr' = fs_shape fr -> frame_ok m fr -> frame_ok m fr'.
Proof.
  unfold fs_shape, frame_ok. intros H. injection H as H1 H2 H3.
  rewrite H1, H2, H3. done.
Qed.

Lemma store_ok_top m t rest t' :
  store_ok m -> frame_stack_ m = t :: rest -> fs_shape t' = fs_shape t ->
  store_ok (set_stack (t' :: rest) m).
Proof.
  intros [Hr Hf] Hs Hsh. rewrite Hs in Hf. apply Forall_cons in Hf as [Ht Hrest].
  split; [exact Hr|]. simpl. constructor; [|exact Hrest].
  exact (frame_ok_shape m t t' Hsh Ht).
Qed.

Lemma modify_top_store_ok g m m' :
  store_ok m -> (forall t t', g t = Ok t' -> fs_shape t' = fs_shape t) ->
  modify_top g m = Ok m' -> store_ok m'.
Proof.
  intros Hok Hg H. apply modify_top_Ok in H as (t & rest & t' & Hs & Ht & ->).
  exact (store_ok_top m t rest t' Hok Hs (Hg _ _ Ht)).
Qed.

Lemma store_ok_record m c r r' :
  store_ok m -> functions_ m !! c = Some r -> fn_shape r' = fn_shape r ->
  store_ok (set_functions (<[c := r']> (functions_ m)) m).
Proof.
  intros [Hr Hf] Hc Hsh. unfold fn_shape in Hsh. injection Hsh as H1 H2 H3.
  split; simpl.
  - intros c' r0 H. destruct (decide (c = c')) as [<-|Hne].
    + rewrite lookup_insert_eq in H. injection H as <-.
      destruct (Hr c r Hc) as (Hl & Ht & Hti). unfold record_ok. simpl.
      rewrite H1, H2, H3. done.
    + rewrite lookup_insert_ne in H by done. exact (Hr c' r0 H).
  - eapply Forall_impl; [exact Hf|]. intros fr (Ha & Hb & Hc').
    split; [exact Ha|]. split; [exact Hb|]. simpl.
    destruct (decide (c = fs_key fr)) as [<-|Hne].
    + rewrite lookup_insert_eq. eauto.
    + rewrite lookup_insert_ne by done. exact Hc'.
Qed.

Lemma pop_frame_store_ok m m' :
  store_ok m -> pop_frame m = Ok m' -> store_ok m'.
Proof.
  intros Hok H. unfold pop_frame in H.
  destruct (frame_stack_ m) as [|fr rest] eqn:Es; [discriminate|].
  apply bind_Ok_inv in H as (f & Hf & H').
  apply bind_Ok_inv in H' as (f2 & Hf2 & H'').
  unfold map_at in Hf. destruct (functions_ m !! fs_key fr) as [f0|] eqn:Ek;
    [injection Hf as <-|discriminate].
  assert (Hsh : fn_shape f2 = fn_shape f0).
  { rewrite (fold_lines_shape _ _ _ _ Hf2). reflexivity. }
  pose proof (store_ok_record m (fs_key fr) f0 f2 Hok Ek Hsh) as Hok1.
  assert (Hok2 : store_ok (set_stack rest
                   (set_functions (<[fs_key fr := f2]> (functions_ m)) m))).
  { destruct Hok1 as [Hr Hfr]. split; [exact Hr|].
    simpl in *. rewrite Es in Hfr. apply Forall_cons in Hfr as [_ Hrest].
    exact Hrest. }
  destruct rest as [|t rest'].
  - injection H'' as <-. exact Hok2.
  - eapply modify_top_store_ok; [exact Hok2| |exact H''].
    intros t0 t1. apply update_current_line_shape.
Qed.

Lemma finish_store_ok fr e m m1 :
  store_ok m -> finish fr e m = Ok m1 -> store_ok m1.
Proof.
  intros Hok. unfold finish, finish_origin.
  destruct (last_instruction_ m); intros H;
    try (injection H as <-; exact Hok).
  - unfold finish_line in H. destruct (frame_stack_ m).
    + injection H as <-. exact Hok.
    + eapply modify_top_store_ok; [exact Hok| |exact H].
      intros t t'. apply update_current_line_shape.
  - unfold finish_call, map_at in H.
    destruct (functions_ m !! f_code fr) as [f|] eqn:Ef; [|discriminate].
    injection H as <-. by apply (store_ok_record m _ f).
  - unfold finish_return in H. apply bind_Ok_inv in H as (m2 & H2 & H3).
    eapply pop_frame_store_ok; [|exact H3].
    eapply modify_top_store_ok; [exact Hok| |exact H2].
    intros t t' Ht. injection Ht as <-. reflexivity.
  - unfold finish_ccall in H. apply bind_Ok_inv in H as (cf & _ & H3).
    eapply (modify_top_store_ok _ (set_c_functions _ m)); [exact Hok| |exact H3].
    intros t t'. apply update_current_line_shape.
  - unfold finish_creturn in H.
    eapply modify_top_store_ok; [exact Hok| |exact H].
    intros t t' Ht. injection Ht as <-. reflexivity.
Qed.

Lemma add_function_store_ok fr m :
  store_ok m ->
  store_ok (add_function fr m) /\ is_Some (functions_ (add_function fr m) !! f_code fr).
Proof.
  intros [Hr Hf]. unfold add_function.
  destruct (functions_ m !! f_code fr) as [f|] eqn:Ef; [split; [split|]; eauto|].
  split; [|simpl; rewrite lookup_insert_eq; eauto].
  split; simpl.
  - intros c r H. destruct (decide (f_code fr = c)) as [<-|Hne].
    + rewrite lookup_insert_eq in H. injection H as <-.
      unfold record_ok, Function_new. simpl. rewrite get_lines_eq. simpl.
      rewrite !length_replicate. done.
    + rewrite lookup_insert_ne in H by done. exact (Hr c r H).
  - eapply Forall_impl; [exact Hf|]. intros t (Ha & Hb & Hc).
    split; [exact Ha|]. split; [exact Hb|]. simpl.
    destruct (decide (f_code fr = fs_key t)) as [<-|Hne].
    + rewrite lookup_insert_eq. eauto.
    + rewrite lookup_insert_ne by done. exact Hc.
Qed.

Lemma begin_store_ok w fr a m : store_ok m -> store_ok (begin w fr a m).
Proof.
  intros Hok. destruct w; simpl; try exact Hok.
  - unfold profile_call. rewrite emplace_frame_eq.
    destruct (add_function_store_ok fr m Hok) as [[Hr Hf] Hs].
    split; [exact Hr|]. simpl. constructor; [|exact Hf].
    unfold frame_ok, FrameState_new. simpl. rewrite !get_lines_eq. simpl.
    rewrite length_replicate.
    assert (Hi : inspect_ (add_function fr m) = inspect_ m).
    { unfold add_function. destruct (functions_ m !! f_code fr); done. }
    rewrite Hi. done.
  - unfold profile_line. simpl. destruct (frame_stack_ m) as [|t rest] eqn:Es.
    + exact Hok.
    + apply (store_ok_top m t rest); [exact Hok|exact Es|reflexivity].
  - unfold profile_c_call, add_c_function. simpl.
    destruct (c_functions_ m !! obj_str a); exact Hok.
Qed.

Lemma reachable_store_ok insp m : reachable insp m -> store_ok m.
Proof.
  induction 1 as [| m _ IH | m _ IH | ev m m' _ IH H].
  - split; [intros c r H; simpl in H; rewrite lookup_empty in H; discriminate|constructor].
  - exact IH.
  - exact IH.
  - unfold deliver in H. destruct (profiling m).
    + apply profile_Ok_inv in H as (m1 & Hf & ->).
      apply begin_store_ok. exact (finish_store_ok _ _ _ _ IH Hf).
    + injection H as <-. exact IH.
Qed.

Lemma run_reachable insp evs m m' :
  reachable insp m -> run evs m = Ok m' -> reachable insp m'.
Proof.
  revert m. induction evs as [|ev evs IH]; intros m Hm H; simpl in H.
  - injection H as <-. exact Hm.
  - apply bind_Ok_inv in H as (m1 & H1 & H2).
    exact (IH m1 (reach_deliver insp ev m m1 Hm H1) H2).
Qed.

(** ** C10 *)

(** C10: in every reachable state, the record of a callable holds the
    source lines returned by the provider minus the first one, and its two
    accumulator vectors have that many slots, one less than the number of
    returned lines; slot [i] stands for returned line [i+1], so the first
    returned line has no slot.  Every frame on the stack has as many line
    slots as its callable's record, and its starting line is the
    provider's first line number, so the slot [current_line -
    starting_line - 1] stands for the absolute line [current_line]. *)
Theorem C10_line_vectors_follow_snapshot (insp : code -> list string * Z)
  (m : Module) :
  reachable insp m ->
  (forall c r, functions_ m !! c = Some r ->
     fn_lines r = drop 1 (insp c).1 /\
     length (fn_line_time r) = (length (insp c).1 - 1)%nat /\
     length (fn_line_time_internal r) = (length (insp c).1 - 1)%nat /\
     (forall i, fn_lines r !! i = (insp c).1 !! S i)) /\
  (forall fr, fr ∈ frame_stack_ m ->
     fs_starting_line fr = to_size_t (insp (fs_key fr)).2 /\
     exists r, functions_ m !! fs_key fr = Some r /\
       length (fs_lines fr) = length (fn_line_time r) /\
       length (fs_lines fr) = length (fn_line_time_internal r) /\
       length (fs_lines fr) = (length (insp (fs_key fr)).1 - 1)%nat).
Proof.
  intros Hreach.
  pose proof (reachable_inspect insp m Hreach) as Hi.
  destruct (reachable_store_ok insp m Hreach) as [Hr Hf].
  split.
  - intros c r H. destruct (Hr c r H) as (Hl & Ht & Hti).
    rewrite Hi in Hl. rewrite Hl, length_drop in Ht, Hti.
    split; [exact Hl|]. split; [exact Ht|]. split; [exact Hti|].
    intros i. rewrite Hl, lookup_drop. reflexivity.
  - intros fr Hin. rewrite Forall_forall in Hf.
    destruct (Hf fr Hin) as (Hs & Hl & [r Hrec]).
    rewrite Hi in Hs, Hl. rewrite length_drop in Hl.
    split; [exact Hs|]. exists r. split; [exact Hrec|].
    destruct (Hr _ r Hrec) as (Hl' & Ht & Hti).
    rewrite Hi in Hl'. rewrite Hl', length_drop in Ht, Hti. lia.
Qed.

Definition C10_m : Module := ok_or demo_started (run C2_prefix demo_started).

Lemma C10_witness :
  reachable demo_source C10_m /\
  (forall c r, functions_ C10_m !! c = Some r ->
     fn_lines r = drop 1 (demo_source c).1 /\
     length (fn_line_time r) = (length (demo_source c).1 - 1)%nat /\
     length (fn_line_time_internal r) = (length (demo_source c).1 - 1)%nat /\
     (forall i, fn_lines r !! i = (demo_source c).1 !! S i)) /\
  (forall fr, fr ∈ frame_stack_ C10_m ->
     fs_starting_line fr = to_size_t (demo_source (fs_key fr)).2 /\
     exists r, functions_ C10_m !! fs_key fr = Some r /\
       length (fs_lines fr) = length (fn_line_time r) /\
       length (fs_lines fr) = length (fn_line_time_internal r) /\
       length (fs_lines fr) = (length (demo_source (fs_key fr)).1 - 1)%nat).
Proof.
  assert (Hr : reachable demo_source C10_m).
  { apply (run_reachable demo_source C2_prefix demo_started).
    - apply reach_start, reach_new.
    - vm_compute. reflexivity. }
  split; [exact Hr|].
  exact (C10_line_vectors_follow_snapshot demo_source C10_m Hr).
Defined.

(** ** Sums over line vectors *)

Definition sumZ (l : list Z) : Z := foldr Z.add 0%Z l.

Ltac fold_alter :=
  repeat match goal with
  | |- context [list_alter ?f ?i ?l] => change (list_alter f i l) with (alter f i l)
  end.

Lemma sumZ_alter_add x i l :
  (i < length l)%nat -> sumZ (alter (Z.add x) i l) = (sumZ l + x)%Z.
Proof.
  unfold sumZ. revert i. induction l as [|y l IH]; intros i Hi; simpl in Hi; [lia|].
  destruct i as [|i]; simpl; fold_alter.
  - lia.
  - rewrite (IH i) by lia. lia.
Qed.

Lemma sum_internal_alter_add_internal x j (l : list LineState) :
  (j < length l)%nat ->
  sumZ (map ls_internal (alter (add_internal x) j l)) =
    (sumZ (map ls_internal l) + x)%Z /\
  sumZ (map ls_external (alter (add_internal x) j l)) = sumZ (map ls_external l).
Proof.
  unfold sumZ. revert j. induction l as [|y l IH]; intros j Hj; simpl in Hj; [lia|].
  destruct j as [|j]; simpl; fold_alter.
  - split; lia.
  - destruct (IH j) as [H1 H2]; [lia|]. rewrite H1, H2. split; lia.
Qed.

Lemma sum_replicate_zero n :
  sumZ (map ls_internal (replicate n LineState_zero)) = 0%Z /\
  sumZ (map ls_external (replicate n LineState_zero)) = 0%Z.
Proof.
  unfold sumZ. induction n as [|n IH]; simpl; [done|]. destruct IH as [-> ->]. done.
Qed.

Lemma total_time_sum fr :
  total_time fr =
    (sumZ (map ls_internal (fs_lines fr)) + sumZ (map ls_external (fs_lines fr)))%Z.
Proof.
  unfold total_time.
  assert (H : forall acc ls,
    foldl (fun result line => result + ls_internal line + ls_external line)%Z acc ls
    = (acc + sumZ (map ls_internal ls) + sumZ (map ls_external ls))%Z).
  { unfold sumZ. intros acc ls. revert acc. induction ls as [|l ls IH]; intros acc; simpl.
    - lia.
    - rewrite IH. lia. }
  rewrite H. lia.
Qed.

Lemma fold_lines_sums i ls f :
  (i < length (fn_line_time f))%nat -> (i < length (fn_line_time_internal f))%nat ->
  exists f', fold_lines i ls f = Ok f' /\ fn_shape f' = fn_shape f /\
    fn_internal_time f' = fn_internal_time f /\
    sumZ (fn_line_time f') = (sumZ (fn_line_time f) + sumZ (map ls_external ls))%Z /\
    sumZ (fn_line_time_internal f') =
      (sumZ (fn_line_time_internal f) + sumZ (map ls_internal ls))%Z.
Proof.
  revert f. induction ls as [|l ls IH]; intros f H1 H2; simpl.
  - exists f. repeat split; lia.
  - unfold Function_add_elapsed at 1, vec_at_update at 1.
    rewrite decide_True by done. simpl.
    unfold Function_add_elapsed_internal at 1, vec_at_update at 1. simpl.
    rewrite decide_True by done. simpl.
    destruct (IH (mkFunction (fn_name f) (fn_internal_time f) (fn_code f) (fn_lines f)
                (alter (Z.add (ls_external l)) i (fn_line_time f))
                (alter (Z.add (ls_internal l)) i (fn_line_time_internal f))))
      as (f' & Hf & Hsh & Hit & Hs1 & Hs2);
      simpl; rewrite ?length_alter; [done|done|].
    exists f'. split; [exact Hf|]. split.
    { rewrite Hsh. unfold fn_shape. simpl. rewrite !length_alter. done. }
    split; [exact Hit|].
    rewrite Hs1, Hs2. simpl. rewrite !sumZ_alter_add by done. split; lia.
Qed.

(** ** One dispatch at a time *)

(** [current_line().g(...)] when the index is in range. *)
Definition line_upd (g : LineState -> LineState) (fr : FrameState) : FrameState :=
  mkFrame (fs_starting_line fr) (fs_current_line fr) (fs_key fr)
    (alter g (Z.to_nat (line_index fr)) (fs_lines fr)) (fs_internal fr).

(** The record [add_function] leaves at [f_code fr]. *)
Definition callee_record (m : Module) (fr : PyFrame) : Function :=
  match functions_ m !! f_code fr with
  | Some r => r
  | None => Function_new (co_name fr) (get_lines m fr).1 (f_code fr)
  end.

(** The frame [emplace_frame] pushes. *)
Definition callee_frame (m : Module) (fr : PyFrame) : FrameState :=
  FrameState_new (f_code fr) (length (get_lines m fr).1) (get_lines m fr).2.

Lemma update_current_line_upd g fr :
  (line_index fr < Z.of_nat (length (fs_lines fr)))%Z ->
  update_current_line g fr = Ok (line_upd g fr).
Proof. apply update_current_line_in. Qed.

Lemma add_function_eq fr m :
  add_function fr m =
    set_functions (<[f_code fr := callee_record m fr]> (functions_ m)) m.
Proof.
  unfold add_function, callee_record.
  destruct (functions_ m !! f_code fr) eqn:E; [|reflexivity].
  rewrite insert_id by exact E. destruct m; reflexivity.
Qed.

Lemma profile_call_eq fr m :
  profile_call fr m =
    set_last kCall
      (set_stack (callee_frame m fr :: frame_stack_ m)
         (set_functions (<[f_code fr := callee_record m fr]> (functions_ m)) m)).
Proof. unfold profile_call. rewrite add_function_eq, emplace_frame_eq. reflexivity. Qed.

Lemma profile_line_cons fr m t rest :
  frame_stack_ m = t :: rest ->
  profile_line fr m =
    set_last kLine (set_stack (set_current_line (to_size_t (f_lineno fr)) t :: rest) m).
Proof. intros Hs. unfold profile_line. simpl. rewrite Hs. reflexivity. Qed.

Lemma finish_line_top fr e m t rest :
  last_instruction_ m = kLine -> frame_stack_ m = t :: rest ->
  (line_index t < Z.of_nat (length (fs_lines t)))%Z ->
  finish fr e m = Ok (set_stack (line_upd (add_internal e) t :: rest) m).
Proof.
  intros Hl Hs Hi. unfold finish. rewrite Hl. unfold finish_line, modify_top.
  rewrite Hs, update_current_line_upd by exact Hi. reflexivity.
Qed.

Lemma finish_call_eq fr e m r :
  last_instruction_ m = kCall -> functions_ m !! f_code fr = Some r ->
  finish fr e m =
    Ok (set_functions (<[f_code fr := Function_add_overhead e r]> (functions_ m)) m).
Proof.
  intros Hl Hr. unfold finish. rewrite Hl. unfold finish_call, map_at.
  rewrite Hr. reflexivity.
Qed.

Lemma pop_frame_two m t t2 rest r r' :
  frame_stack_ m = t :: t2 :: rest ->
  functions_ m !! fs_key t = Some r ->
  fold_lines 0 (fs_lines t) (Function_add_overhead (fs_internal t) r) = Ok r' ->
  (line_index t2 < Z.of_nat (length (fs_lines t2)))%Z ->
  pop_frame m =
    Ok (set_stack (line_upd (add_external (total_time t)) t2 :: rest)
          (set_functions (<[fs_key t := r']> (functions_ m)) m)).
Proof.
  intros Hs Hr Hf Hi. unfold pop_frame. rewrite Hs. unfold map_at. rewrite Hr.
  rewrite bind_Ok, Hf, bind_Ok. unfold modify_top. simpl.
  rewrite update_current_line_upd by exact Hi. reflexivity.
Qed.

Lemma finish_return_two fr e m t t2 rest r r' :
  last_instruction_ m = kReturn ->
  frame_stack_ m = t :: t2 :: rest ->
  functions_ m !! fs_key t = Some r ->
  fold_lines 0 (fs_lines t) (Function_add_overhead (fs_internal t + e) r) = Ok r' ->
  (line_index t2 < Z.of_nat (length (fs_lines t2)))%Z ->
  finish fr e m =
    Ok (set_stack (line_upd (add_external (total_time t)) t2 :: rest)
          (set_functions (<[fs_key t := r']> (functions_ m)) m)).
Proof.
  intros Hl Hs Hr Hf Hi. unfold finish. rewrite Hl. unfold finish_return, modify_top.
  rewrite Hs, bind_Ok, bind_Ok.
  rewrite (pop_frame_two _ (frame_add_internal e t) t2 rest r r'); try done.
Qed.

Lemma callee_record_shape m fr :
  store_ok m ->
  length (fn_line_time (callee_record m fr)) = length (get_lines m fr).1 /\
  length (fn_line_time_internal (callee_record m fr)) = length (get_lines m fr).1.
Proof.
  intros [Hr _]. unfold callee_record.
  destruct (functions_ m !! f_code fr) as [r|] eqn:E.
  - destruct (Hr _ _ E) as (Hl & A & B). rewrite A, B, Hl, get_lines_eq. done.
  - unfold Function_new. simpl. rewrite !length_replicate. done.
Qed.

(** C2 (amended).  Take the scenario [Line(L1), Call(f), Line(f), Return]
    inside a caller whose current line [L1] is in range, followed by the
    next dispatch, of any kind, whose interval is [d].  The Call dispatch
    adds its 10ms to the caller's current line as internal time and pushes
    [f]'s frame.  The Line dispatch inside [f] adds its 5ms directly to
    [f]'s record overhead and sets the current line of [f]'s frame.  The
    Return dispatch adds its 2ms to that current line as internal time;
    [f]'s frame is still on the stack afterwards, and its lines hold 2ms
    in total.  The finish phase of the next dispatch pops it: [d] is added
    to [f]'s overhead (5ms + d in all); the frame's lines are folded into
    [f]'s line vectors; and the caller's line [L1] gets the frame's line
    total, 2ms, as external time, not 7ms, because the 5ms went to the
    record overhead, which the line total does not include.  No other line
    of the caller changes.  The begin phase of that dispatch then runs on
    the result. *)
Theorem C2_call_scenario_accounting (m1 : Module) (caller : FrameState)
  (rest : list FrameState) (frC frL frR frN : PyFrame) (a : PyObj) (w : Trace)
  (d : duration) :
  last_instruction_ m1 = kLine ->
  frame_stack_ m1 = caller :: rest ->
  (line_index caller < Z.of_nat (length (fs_lines caller)))%Z ->
  store_ok m1 ->
  f_code frL = f_code frC ->
  (line_index (set_current_line (to_size_t (f_lineno frL)) (callee_frame m1 frC))
     < Z.of_nat (length (fs_lines (callee_frame m1 frC))))%Z ->
  exists m2 m3 m4 m5 r5,
    profile PyTrace_CALL frC a (ms 10) m1 = Ok m2 /\
    profile PyTrace_LINE frL a (ms 5) m2 = Ok m3 /\
    profile PyTrace_RETURN frR a (ms 2) m3 = Ok m4 /\
    finish frN d m4 = Ok m5 /\
    profile w frN a d m4 = Ok (begin w frN a m5) /\
    frame_stack_ m2 =
      callee_frame m1 frC :: line_upd (add_internal (ms 10)) caller :: rest /\
    functions_ m3 !! f_code frC =
      Some (Function_add_overhead (ms 5) (callee_record m1 frC)) /\
    frame_stack_ m3 =
      set_current_line (to_size_t (f_lineno frL)) (callee_frame m1 frC)
        :: line_upd (add_internal (ms 10)) caller :: rest /\
    frame_stack_ m4 =
      line_upd (add_internal (ms 2))
        (set_current_line (to_size_t (f_lineno frL)) (callee_frame m1 frC))
        :: line_upd (add_internal (ms 10)) caller :: rest /\
    sumZ (map ls_internal (fs_lines (line_upd (add_internal (ms 2))
        (set_current_line (to_size_t (f_lineno frL)) (callee_frame m1 frC))))) = ms 2 /\
    sumZ (map ls_external (fs_lines (line_upd (add_internal (ms 2))
        (set_current_line (to_size_t (f_lineno frL)) (callee_frame m1 frC))))) = 0%Z /\
    functions_ m4 = functions_ m3 /\
    frame_stack_ m5 =
      line_upd (add_external (ms 2)) (line_upd (add_internal (ms 10)) caller) :: rest /\
    fs_lines (line_upd (add_external (ms 2)) (line_upd (add_internal (ms 10)) caller))
        !! Z.to_nat (line_index caller) =
      (add_external (ms 2) ∘ add_internal (ms 10))
        <$> fs_lines caller !! Z.to_nat (line_index caller) /\
    (forall k, k <> Z.to_nat (line_index caller) ->
       fs_lines (line_upd (add_external (ms 2)) (line_upd (add_internal (ms 10)) caller))
         !! k = fs_lines caller !! k) /\
    functions_ m5 !! f_code frC = Some r5 /\
    fn_internal_time r5 = (fn_internal_time (callee_record m1 frC) + ms 5 + d)%Z /\
    sumZ (fn_line_time_internal r5) =
      (sumZ (fn_line_time_internal (callee_record m1 frC)) + ms 2)%Z /\
    sumZ (fn_line_time r5) = sumZ (fn_line_time (callee_record m1 frC)).
Proof.
  intros H1 H2 H3 H4 H5 H6.
  set (cU := line_upd (add_internal (ms 10)) caller).
  set (r0 := callee_record m1 frC).
  set (n := length (get_lines m1 frC).1).
  set (cL := set_current_line (to_size_t (f_lineno frL)) (callee_frame m1 frC)).
  set (j := Z.to_nat (line_index cL)).
  set (t4 := line_upd (add_internal (ms 2)) cL).
  assert (HL : fs_lines cL = replicate n LineState_zero) by reflexivity.
  assert (H6' : (line_index cL < Z.of_nat (length (fs_lines cL)))%Z) by exact H6.
  rewrite HL, length_replicate in H6'.
  assert (Hj : (j < n)%nat).
  { pose proof (line_index_nonneg cL). unfold j. lia. }
  destruct (callee_record_shape m1 frC H4) as [Hn1 Hn2]. fold r0 n in Hn1, Hn2.
  (* the line total of the callee frame *)
  assert (Ht4 : fs_lines t4 = alter (add_internal (ms 2)) j (replicate n LineState_zero))
    by reflexivity.
  destruct (sum_internal_alter_add_internal (ms 2) j (replicate n LineState_zero))
    as [Si Se]; [rewrite length_replicate; exact Hj|].
  destruct (sum_replicate_zero n) as [Zi Ze].
  rewrite Zi in Si. rewrite Ze in Se. rewrite <- Ht4 in Si, Se.
  assert (Htot : total_time t4 = ms 2) by (rewrite total_time_sum, Si, Se; lia).
  (* the fold of the popped frame *)
  destruct (fold_lines_sums 0 (fs_lines t4)
              (Function_add_overhead (fs_internal t4 + d)
                 (Function_add_overhead (ms 5) r0)))
    as (r5 & Hf & _ & Hit & Hs1 & Hs2); [cbn; lia|cbn; lia|].
  (* the three dispatches and the next finish *)
  set (m2 := profile_call frC (set_stack (cU :: rest) m1)).
  assert (D1 : profile PyTrace_CALL frC a (ms 10) m1 = Ok m2).
  { unfold profile. rewrite (finish_line_top frC (ms 10) m1 caller rest) by done.
    reflexivity. }
  assert (S2 : frame_stack_ m2 = callee_frame m1 frC :: cU :: rest).
  { unfold m2. rewrite profile_call_eq. reflexivity. }
  assert (F2 : functions_ m2 = <[f_code frC := r0]> (functions_ m1)).
  { unfold m2. rewrite profile_call_eq. reflexivity. }
  assert (L2 : last_instruction_ m2 = kCall).
  { unfold m2. rewrite profile_call_eq. reflexivity. }
  set (m3 := profile_line frL
               (set_functions (<[f_code frL := Function_add_overhead (ms 5) r0]>
                                 (functions_ m2)) m2)).
  assert (D2 : profile PyTrace_LINE frL a (ms 5) m2 = Ok m3).
  { unfold profile. rewrite (finish_call_eq frL (ms 5) m2 r0); [reflexivity|exact L2|].
    rewrite F2, H5. apply lookup_insert_eq. }
  assert (S3 : frame_stack_ m3 = cL :: cU :: rest).
  { unfold m3. rewrite (profile_line_cons _ _ (callee_frame m1 frC) (cU :: rest))
      by exact S2. reflexivity. }
  assert (F3 : functions_ m3 =
                 <[f_code frC := Function_add_overhead (ms 5) r0]> (functions_ m2)).
  { unfold m3. rewrite (profile_line_cons _ _ (callee_frame m1 frC) (cU :: rest))
      by exact S2. simpl. rewrite H5. reflexivity. }
  assert (L3 : last_instruction_ m3 = kLine).
  { unfold m3. rewrite (profile_line_cons _ _ (callee_frame m1 frC) (cU :: rest))
      by exact S2. reflexivity. }
  set (m4 := profile_return (set_stack (t4 :: cU :: rest) m3)).
  assert (D3 : profile PyTrace_RETURN frR a (ms 2) m3 = Ok m4).
  { unfold profile. rewrite (finish_line_top frR (ms 2) m3 cL (cU :: rest));
      [reflexivity|exact L3|exact S3|rewrite HL, length_replicate; exact H6']. }
  set (cU' := line_upd (add_external (total_time t4)) cU).
  set (m5 := set_stack (cU' :: rest)
               (set_functions (<[fs_key t4 := r5]> (functions_ m4)) m4)).
  assert (D4 : finish frN d m4 = Ok m5).
  { rewrite (finish_return_two frN d m4 t4 cU rest (Function_add_overhead (ms 5) r0) r5);
      try reflexivity.
    - change (fs_key t4) with (f_code frC). change (functions_ m4) with (functions_ m3).
      rewrite F3. apply lookup_insert_eq.
    - exact Hf.
    - change (line_index cU) with (line_index caller).
      change (fs_lines cU) with
        (alter (add_internal (ms 10)) (Z.to_nat (line_index caller)) (fs_lines caller)).
      rewrite length_alter. exact H3. }
  exists m2, m3, m4, m5, r5.
  split; [exact D1|]. split; [exact D2|]. split; [exact D3|]. split; [exact D4|].
  split; [unfold profile; rewrite D4; reflexivity|].
  split; [exact S2|].
  split; [rewrite F3; apply lookup_insert_eq|].
  split; [exact S3|].
  split; [reflexivity|]. split; [rewrite Si; lia|]. split; [exact Se|].
  split; [reflexivity|].
  split; [unfold m5, cU'; rewrite Htot; reflexivity|].
  change (fs_lines (line_upd (add_external (ms 2)) cU)) with
    (alter (add_external (ms 2)) (Z.to_nat (line_index caller))
       (alter (add_internal (ms 10)) (Z.to_nat (line_index caller)) (fs_lines caller))).
  split.
  { rewrite !list_lookup_alter_eq.
    destruct (fs_lines caller !! Z.to_nat (line_index caller)); reflexivity. }
  split.
  { intros k Hk. rewrite !list_lookup_alter_ne by congruence. reflexivity. }
  split.
  { unfold m5. change (fs_key t4) with (f_code frC). simpl. apply lookup_insert_eq. }
  split; [rewrite Hit; cbn; rewrite Z.add_0_l; reflexivity|].
  split; [rewrite Hs2, Si; reflexivity|].
  rewrite Hs1, Se. apply Z.add_0_r.
Qed.

(** [main] has entered line 2, the line that calls [f]. *)
Definition C2_m1 : Module :=
  ok_or demo_started
    (run [ev PyTrace_CALL (fr_main 1) 0; ev PyTrace_LINE (fr_main 2) 1] demo_started).

Definition C2_caller : FrameState := mkFrame 1 2 2 [mkLine 0 0; mkLine 0 0] 0.

Lemma C2_witness :
  last_instruction_ C2_m1 = kLine /\
  frame_stack_ C2_m1 = [C2_caller] /\
  (line_index C2_caller < Z.of_nat (length (fs_lines C2_caller)))%Z /\
  store_ok C2_m1 /\
  (line_index (set_current_line (to_size_t (f_lineno (fr_f 11))) (callee_frame C2_m1 (fr_f 10)))
     < Z.of_nat (length (fs_lines (callee_frame C2_m1 (fr_f 10)))))%Z /\
  exists m2 m3 m4 m5,
    profile PyTrace_CALL (fr_f 10) no_arg (ms 10) C2_m1 = Ok m2 /\
    profile PyTrace_LINE (fr_f 11) no_arg (ms 5) m2 = Ok m3 /\
    profile PyTrace_RETURN (fr_f 11) no_arg (ms 2) m3 = Ok m4 /\
    profile PyTrace_C_CALL (fr_main 2) no_arg 1 m4 =
      Ok (begin PyTrace_C_CALL (fr_main 2) no_arg m5).
Proof.
  assert (H1 : last_instruction_ C2_m1 = kLine) by (vm_compute; reflexivity).
  assert (H2 : frame_stack_ C2_m1 = [C2_caller]) by (vm_compute; reflexivity).
  assert (H3 : (line_index C2_caller < Z.of_nat (length (fs_lines C2_caller)))%Z)
    by (vm_compute; reflexivity).
  assert (H4 : store_ok C2_m1).
  { apply (reachable_store_ok demo_source).
    apply (run_reachable demo_source
             [ev PyTrace_CALL (fr_main 1) 0; ev PyTrace_LINE (fr_main 2) 1] demo_started).
    - apply reach_start, reach_new.
    - vm_compute; reflexivity. }
  assert (H6 : (line_index (set_current_line (to_size_t (f_lineno (fr_f 11)))
                              (callee_frame C2_m1 (fr_f 10)))
                < Z.of_nat (length (fs_lines (callee_frame C2_m1 (fr_f 10)))))%Z)
    by (vm_compute; reflexivity).
  do 5 (split; [assumption|]).
  destruct (C2_call_scenario_accounting C2_m1 C2_caller [] (fr_f 10) (fr_f 11)
              (fr_f 11) (fr_main 2) no_arg PyTrace_C_CALL 1 H1 H2 H3 H4 eq_refl H6)
    as (m2 & m3 & m4 & m5 & _ & D1 & D2 & D3 & _ & D4 & _).
  exists m2, m3, m4, m5. split; [exact D1|]. split; [exact D2|]. split; [exact D3|].
  exact D4.
Defined.

(** C3 (amended).  The begin phase of an Exception or a ForeignException
    dispatch updates no accumulator: the interpreted records, the foreign
    records and the frame stack are left as they are.  A ForeignException is
    recorded as a ForeignReturn, so the interval that ends at the next
    dispatch is not dropped: it is added to the overhead of the top
    invocation, and an empty stack makes that dispatch fail. *)
Theorem C3_exception_begin_no_update (fr fr' : PyFrame) (a : PyObj) (e : duration)
  (m : Module) :
  functions_ (begin PyTrace_EXCEPTION fr a m) = functions_ m /\
  c_functions_ (begin PyTrace_EXCEPTION fr a m) = c_functions_ m /\
  frame_stack_ (begin PyTrace_EXCEPTION fr a m) = frame_stack_ m /\
  begin PyTrace_C_EXCEPTION fr a m = set_last kCReturn m /\
  finish fr' e (begin PyTrace_C_EXCEPTION fr a m) =
    match frame_stack_ m with
    | [] => Err EmptyStack
    | t :: rest => Ok (set_stack (frame_add_internal e t :: rest) (set_last kCReturn m))
    end.
Proof.
  split; [reflexivity|]. split; [reflexivity|]. split; [reflexivity|].
  split; [reflexivity|].
  unfold finish. simpl. unfold finish_creturn, modify_top. simpl.
  destruct (frame_stack_ m); reflexivity.
Qed.

(** * Further properties of the engine *)

(** ** What a successful fold and a successful line update did *)

Lemma fold_lines_Ok i ls f f' :
  fold_lines i ls f = Ok f' ->
  fn_name f' = fn_name f /\ fn_internal_time f' = fn_internal_time f /\
  fn_code f' = fn_code f /\ fn_lines f' = fn_lines f /\
  length (fn_line_time f') = length (fn_line_time f) /\
  length (fn_line_time_internal f') = length (fn_line_time_internal f) /\
  fn_line_time f' !! i = Z.add (sumZ (map ls_external ls)) <$> fn_line_time f !! i /\
  fn_line_time_internal f' !! i =
    Z.add (sumZ (map ls_internal ls)) <$> fn_line_time_internal f !! i /\
  (forall k, k <> i -> fn_line_time f' !! k = fn_line_time f !! k /\
                       fn_line_time_internal f' !! k = fn_line_time_internal f !! k) /\
  sumZ (fn_line_time f') = (sumZ (fn_line_time f) + sumZ (map ls_external ls))%Z /\
  sumZ (fn_line_time_internal f') =
    (sumZ (fn_line_time_internal f) + sumZ (map ls_internal ls))%Z.
Proof.
  revert f. induction ls as [|l ls IH]; intros f H; simpl in H.
  - injection H as <-. simpl.
    destruct (fn_line_time f !! i), (fn_line_time_internal f !! i);
      repeat split; try reflexivity; lia.
  - unfold Function_add_elapsed, vec_at_update in H.
    destruct (decide (i < length (fn_line_time f))) as [Hi1|]; [|discriminate].
    simpl in H.
    unfold Function_add_elapsed_internal, vec_at_update in H. simpl in H.
    destruct (decide (i < length (fn_line_time_internal f))) as [Hi2|]; [|discriminate].
    simpl in H.
    destruct (IH _ H) as (A1 & A2 & A3 & A4 & A5 & A6 & A7 & A8 & A9 & A10 & A11).
    simpl in *. rewrite length_alter in A5, A6.
    split; [done|]. split; [done|]. split; [done|]. split; [done|].
    split; [done|]. split; [done|].
    split.
    { rewrite A7, list_lookup_alter_eq.
      destruct (fn_line_time f !! i); simpl; [f_equal; lia|done]. }
    split.
    { rewrite A8, list_lookup_alter_eq.
      destruct (fn_line_time_internal f !! i); simpl; [f_equal; lia|done]. }
    split.
    { intros k Hk. destruct (A9 k Hk) as [B1 B2].
      rewrite B1, B2, !list_lookup_alter_ne by done. done. }
    rewrite A10, A11, !sumZ_alter_add by done. split; lia.
Qed.

Lemma update_current_line_Ok g t t' :
  update_current_line g t = Ok t' ->
  (line_index t < Z.of_nat (length (fs_lines t)))%Z /\ t' = line_upd g t.
Proof.
  unfold update_current_line, vec_at_update_size_t.
  destruct (decide _) as [Hi|]; [|discriminate]. simpl.
  intros H. injection H as <-. done.
Qed.

Lemma sum_internal_alter_add_external x j (l : list LineState) :
  sumZ (map ls_internal (alter (add_external x) j l)) = sumZ (map ls_internal l).
Proof.
  unfold sumZ. revert j. induction l as [|y l IH]; intros j; [done|].
  destruct j as [|j]; simpl; fold_alter; [done|]. rewrite IH. done.
Qed.

(** ** Sums over the records of a map *)

Lemma sumZ_perm l1 l2 : l1 ≡ₚ l2 -> sumZ l1 = sumZ l2.
Proof. unfold sumZ. induction 1; simpl; lia. Qed.

Section MapSum.
Context {K V : Type} `{Countable K}.
Variable weight : V -> Z.

Definition map_sum (mp : gmap K V) : Z :=
  sumZ (map (fun kv => weight kv.2) (map_to_list mp)).

Lemma map_sum_insert_new mp k v :
  mp !! k = None -> map_sum (<[k:=v]> mp) = (weight v + map_sum mp)%Z.
Proof.
  intros Hk. unfold map_sum.
  rewrite (sumZ_perm _ (map (fun kv => weight kv.2) ((k, v) :: map_to_list mp))).
  - reflexivity.
  - apply Permutation_map. by apply map_to_list_insert.
Qed.

Lemma map_sum_insert mp k v v' :
  mp !! k = Some v ->
  map_sum (<[k:=v']> mp) = (map_sum mp - weight v + weight v')%Z.
Proof.
  intros Hk.
  rewrite <- insert_delete_eq.
  rewrite <- (insert_delete_id mp k v Hk) at 2.
  rewrite !map_sum_insert_new by apply lookup_delete_eq. lia.
Qed.

End MapSum.

(** ** Conservation of internal time *)

(** The internal (self) time held by a record, a foreign record and a frame. *)
Definition record_weight (r : Function) : Z :=
  (fn_internal_time r + sumZ (fn_line_time_internal r))%Z.

Definition frame_weight (t : FrameState) : Z :=
  (fs_internal t + sumZ (map ls_internal (fs_lines t)))%Z.

(** All internal time held by the module: records, foreign records and the
    frames on the stack.  External time is left out: it is inclusive time
    that the code charges a second time on purpose. *)
Definition internal_total (m : Module) : Z :=
  (map_sum record_weight (functions_ m) + map_sum bf_internal_time (c_functions_ m)
   + sumZ (map frame_weight (frame_stack_ m)))%Z.

(** Whether the finish phase of the next dispatch charges its interval:
    a line interval only while a frame is on the stack; origin, exception
    and invalid kinds never. *)
Definition charged (m : Module) : bool :=
  match last_instruction_ m with
  | kLine => match frame_stack_ m with [] => false | _ => true end
  | kCall | kReturn | kCCall | kCReturn => true
  | kOrigin | kException | kCException | kInvalid => false
  end.

Lemma frame_weight_line_internal g t e :
  (forall l, ls_internal (g l) = ls_internal l + e)%Z ->
  (line_index t < Z.of_nat (length (fs_lines t)))%Z ->
  frame_weight (line_upd g t) = (frame_weight t + e)%Z.
Proof.
  intros Hg Hi. unfold frame_weight, line_upd. simpl.
  pose proof (line_index_nonneg t).
  assert (Hj : (Z.to_nat (line_index t) < length (fs_lines t))%nat) by lia.
  clear Hi. revert Hj. generalize (Z.to_nat (line_index t)) as j.
  generalize (fs_lines t) as l. unfold sumZ.
  induction l as [|y l IH]; intros j Hj; simpl in Hj; [lia|].
  destruct j as [|j]; simpl; fold_alter.
  - rewrite Hg. lia.
  - specialize (IH j ltac:(lia)). lia.
Qed.

Lemma frame_weight_line_external x t :
  frame_weight (line_upd (add_external x) t) = frame_weight t.
Proof.
  unfold frame_weight, line_upd. simpl. rewrite sum_internal_alter_add_external. done.
Qed.

Lemma begin_internal_total w fr a m :
  internal_total (begin w fr a m) = internal_total m.
Proof.
  destruct w; simpl; try reflexivity.
  - rewrite profile_call_eq. unfold internal_total. simpl.
    unfold callee_record.
    destruct (functions_ m !! f_code fr) as [r|] eqn:E.
    + rewrite (map_sum_insert _ _ _ r r E).
      unfold callee_frame, frame_weight, FrameState_new. simpl.
      rewrite (proj1 (sum_replicate_zero _)). lia.
    + rewrite (map_sum_insert_new _ _ _ _ E).
      unfold callee_frame, frame_weight, FrameState_new, record_weight, Function_new.
      simpl. rewrite (proj1 (sum_replicate_zero _)).
      assert (Hz : forall n, sumZ (replicate n 0%Z) = 0%Z).
      { unfold sumZ. induction n; simpl; lia. }
      rewrite Hz. lia.
  - unfold profile_line. simpl. destruct (frame_stack_ m) as [|t rest] eqn:Es.
    + unfold internal_total. simpl. rewrite Es. reflexivity.
    + unfold internal_total. simpl. rewrite Es. reflexivity.
  - unfold profile_c_call, add_c_function, internal_total. simpl.
    destruct (c_functions_ m !! obj_str a) eqn:E; simpl; [reflexivity|].
    rewrite (map_sum_insert_new _ _ _ _ E). simpl. lia.
Qed.

Lemma finish_internal_total fr e m m1 :
  finish fr e m = Ok m1 ->
  internal_total m1 = (internal_total m + if charged m then e else 0)%Z.
Proof.
  unfold finish, charged, finish_origin.
  destruct (last_instruction_ m) eqn:El; intros H;
    try (injection H as <-; lia).
  - (* kLine *)
    unfold finish_line in H. destruct (frame_stack_ m) as [|t rest] eqn:Es.
    + injection H as <-. lia.
    + apply modify_top_Ok in H as (t0 & r0 & t' & Hs & Ht & ->).
      rewrite Es in Hs. injection Hs as <- <-.
      apply update_current_line_Ok in Ht as [Hi ->].
      unfold internal_total. simpl. rewrite Es. simpl.
      rewrite (frame_weight_line_internal _ t e); [lia| |exact Hi].
      intros l. reflexivity.
  - (* kCall *)
    unfold finish_call, map_at in H.
    destruct (functions_ m !! f_code fr) as [f|] eqn:Ef; [|discriminate].
    injection H as <-. unfold internal_total. simpl.
    rewrite (map_sum_insert _ _ _ f _ Ef). unfold record_weight. simpl. lia.
  - (* kReturn *)
    unfold finish_return in H. apply bind_Ok_inv in H as (m2 & H2 & H).
    apply modify_top_Ok in H2 as (t & rest & t1 & Hs & Ht & ->).
    injection Ht as <-.
    unfold pop_frame in H. simpl in H.
    apply bind_Ok_inv in H as (r & Hr & H). unfold map_at in Hr. simpl in Hr.
    destruct (functions_ m !! fs_key t) as [r0|] eqn:Ek; [injection Hr as <-|discriminate].
    apply bind_Ok_inv in H as (r' & Hf & H).
    apply fold_lines_Ok in Hf as (_ & Hit & _ & _ & _ & _ & _ & _ & _ & _ & Hsi).
    simpl in Hit, Hsi.
    assert (Hrec : map_sum record_weight (<[fs_key t := r']> (functions_ m)) =
                   (map_sum record_weight (functions_ m) + fs_internal t + e
                    + sumZ (map ls_internal (fs_lines t)))%Z).
    { rewrite (map_sum_insert _ _ _ r0 _ Ek). unfold record_weight.
      rewrite Hit, Hsi. lia. }
    destruct rest as [|t2 rest'].
    + injection H as <-. unfold internal_total. simpl. rewrite Hrec, Hs.
      simpl. unfold frame_weight. lia.
    + apply modify_top_Ok in H as (t0 & r1 & t' & Hs' & Ht & ->).
      simpl in Hs'. injection Hs' as <- <-.
      apply update_current_line_Ok in Ht as [_ ->].
      unfold internal_total. simpl. rewrite Hrec, Hs. simpl.
      rewrite frame_weight_line_external. unfold frame_weight at 3. lia.
  - (* kCCall *)
    unfold finish_ccall, map_at in H.
    destruct (c_functions_ m !! last_c_name_ m) as [cf|] eqn:Ec; [|discriminate].
    simpl in H. apply modify_top_Ok in H as (t & rest & t' & Hs & Ht & ->).
    apply update_current_line_Ok in Ht as [_ ->].
    unfold internal_total. simpl in *. rewrite Hs.
    rewrite (map_sum_insert _ _ _ cf _ Ec). simpl.
    rewrite frame_weight_line_external. lia.
  - (* kCReturn *)
    unfold finish_creturn in H.
    apply modify_top_Ok in H as (t & rest & t' & Hs & Ht & ->). injection Ht as <-.
    unfold internal_total. simpl. rewrite Hs. simpl. unfold frame_weight. simpl. lia.
Qed.

(** Every successful dispatch adds exactly the interval charged by its
    finish phase to the internal time held by the module, and nothing
    else: the begin phase adds zero-filled records and frames only, a
    Return's pop moves a frame's internal time into its record without loss,
    and the external time a pop or a foreign call adds is not internal
    time.  Intervals after an origin, exception or invalid kind, and line
    intervals with an empty stack, are dropped. *)
Theorem profile_internal_time_conserved w fr a e m m' :
  profile w fr a e m = Ok m' ->
  internal_total m' = (internal_total m + if charged m then e else 0)%Z.
Proof.
  intros H. apply profile_Ok_inv in H as (m1 & Hf & ->).
  rewrite begin_internal_total. exact (finish_internal_total _ _ _ _ Hf).
Qed.

Definition X_m_call : Module :=
  ok_or demo_started (run [ev PyTrace_CALL (fr_main 1) 0; ev PyTrace_LINE (fr_main 2) 1;
                           ev PyTrace_CALL (fr_f 10) 7] demo_started).

Lemma profile_internal_time_conserved_witness :
  exists m', profile PyTrace_LINE (fr_f 11) no_arg 5 X_m_call = Ok m' /\
    internal_total m' = (internal_total X_m_call + 5)%Z.
Proof.
  assert (H : profile PyTrace_LINE (fr_f 11) no_arg 5 X_m_call =
              Ok (ok_or X_m_call (profile PyTrace_LINE (fr_f 11) no_arg 5 X_m_call)))
    by (vm_compute; reflexivity).
  eexists. split; [exact H|].
  rewrite (profile_internal_time_conserved _ _ _ _ _ _ H). reflexivity.
Defined.

(** ** The pop of a frame *)

(** [pop_frame] adds the frame's own overhead to its record's overhead,
    all of the frame's external line time to slot 0 of [line_time_] and all
    of its internal line time to slot 0 of [line_time_internal_], whatever
    lines that time was spent on; the other slots are untouched.  The frame
    is removed and the new top's current line gains the frame's line total
    (its own overhead excluded) as external time.  Foreign records are not
    touched. *)
Theorem pop_frame_folds_into_slot0 m m' :
  pop_frame m = Ok m' ->
  exists t rest r r',
    frame_stack_ m = t :: rest /\
    functions_ m !! fs_key t = Some r /\
    functions_ m' = <[fs_key t := r']> (functions_ m) /\
    fn_internal_time r' = (fn_internal_time r + fs_internal t)%Z /\
    fn_line_time r' !! 0%nat =
      Z.add (sumZ (map ls_external (fs_lines t))) <$> fn_line_time r !! 0%nat /\
    fn_line_time_internal r' !! 0%nat =
      Z.add (sumZ (map ls_internal (fs_lines t))) <$> fn_line_time_internal r !! 0%nat /\
    (forall k, k <> 0%nat ->
       fn_line_time r' !! k = fn_line_time r !! k /\
       fn_line_time_internal r' !! k = fn_line_time_internal r !! k) /\
    frame_stack_ m' =
      match rest with
      | [] => []
      | t2 :: rest' => line_upd (add_external (total_time t)) t2 :: rest'
      end /\
    total_time t = (sumZ (map ls_internal (fs_lines t))
                    + sumZ (map ls_external (fs_lines t)))%Z /\
    c_functions_ m' = c_functions_ m.
Proof.
  unfold pop_frame. destruct (frame_stack_ m) as [|t rest] eqn:Es; [discriminate|].
  intros H. apply bind_Ok_inv in H as (r & Hr & H).
  unfold map_at in Hr. destruct (functions_ m !! fs_key t) as [r0|] eqn:Ek;
    [injection Hr as <-|discriminate].
  apply bind_Ok_inv in H as (r' & Hf & H).
  apply fold_lines_Ok in Hf as (_ & Hit & _ & _ & _ & _ & H7 & H8 & H9 & _ & _).
  simpl in Hit, H7, H8, H9.
  exists t, rest, r0, r'.
  assert (Hm : exists t2', frame_stack_ m' =
                 match rest with [] => [] | t2 :: rest' => t2' :: rest' end /\
               (forall t2 rest', rest = t2 :: rest' ->
                  t2' = line_upd (add_external (total_time t)) t2) /\
               functions_ m' = <[fs_key t := r']> (functions_ m) /\
               c_functions_ m' = c_functions_ m).
  { destruct rest as [|t2 rest'].
    - injection H as <-. exists t. done.
    - apply modify_top_Ok in H as (t0 & r1 & t' & Hs' & Ht & ->).
      simpl in Hs'. injection Hs' as <- <-.
      apply update_current_line_Ok in Ht as [_ ->].
      eexists. split; [reflexivity|]. split; [|done].
      intros t3 r3 Heq. injection Heq as <- <-. reflexivity. }
  destruct Hm as (t2' & Hs' & Ht2 & Hfm & Hc).
  split; [done|]. split; [done|]. split; [exact Hfm|].
  split; [rewrite Hit; reflexivity|].
  split; [exact H7|]. split; [exact H8|]. split; [exact H9|].
  split; [|split; [apply total_time_sum|exact Hc]].
  rewrite Hs'. destruct rest as [|t2 rest']; [reflexivity|].
  rewrite (Ht2 t2 rest' eq_refl). reflexivity.
Qed.

(** [f] has run lines 11 and 12 and is about to be popped. *)
Definition X_m_pop : Module :=
  ok_or demo_started (run [ev PyTrace_CALL (fr_main 1) 0; ev PyTrace_LINE (fr_main 2) 1;
                           ev PyTrace_CALL (fr_f 10) 0; ev PyTrace_LINE (fr_f 11) 5;
                           ev PyTrace_LINE (fr_f 12) 3; ev PyTrace_RETURN (fr_f 12) 2]
                          demo_started).

Lemma pop_frame_folds_into_slot0_witness :
  exists m' t rest r r',
    pop_frame X_m_pop = Ok m' /\
    frame_stack_ X_m_pop = t :: rest /\
    functions_ X_m_pop !! fs_key t = Some r /\
    functions_ m' = <[fs_key t := r']> (functions_ X_m_pop).
Proof.
  assert (H : pop_frame X_m_pop = Ok (ok_or X_m_pop (pop_frame X_m_pop)))
    by (vm_compute; reflexivity).
  destruct (pop_frame_folds_into_slot0 _ _ H)
    as (t & rest & r & r' & H1 & H2 & H3 & _).
  exists (ok_or X_m_pop (pop_frame X_m_pop)), t, rest, r, r'.
  split; [exact H|]. split; [exact H1|]. split; [exact H2|]. exact H3.
Defined.

(** ** The range of [current_line()] *)

Lemma line_index_range t :
  (0 <= fs_starting_line t)%Z -> (0 <= fs_current_line t < 2^64)%Z ->
  (fs_starting_line t + Z.of_nat (length (fs_lines t)) < 2^64)%Z ->
  ((line_index t < Z.of_nat (length (fs_lines t)))%Z <->
   (fs_starting_line t < fs_current_line t
      <= fs_starting_line t + Z.of_nat (length (fs_lines t)))%Z) /\
  ((fs_starting_line t < fs_current_line t)%Z ->
   line_index t = (fs_current_line t - fs_starting_line t - 1)%Z).
Proof.
  intros Hs Hc Hn. unfold line_index, to_size_t.
  set (s := fs_starting_line t) in *. set (c := fs_current_line t) in *.
  set (n := Z.of_nat (length (fs_lines t))) in *.
  assert (Hn0 : (0 <= n)%Z) by (unfold n; lia).
  destruct (Z_lt_le_dec s c) as [Hlt|Hle].
  - rewrite Z.mod_small by lia. split; [lia|done].
  - assert (Hm : ((c - s - 1) mod 2^64 = c - s - 1 + 2^64)%Z).
    { rewrite <- (Z_mod_plus_full (c - s - 1) 1 (2^64)).
      rewrite Z.mod_small by lia. lia. }
    rewrite Hm. split; [lia|]. intros. lia.
Qed.

(** The finish rule of a Line interval updates the top frame's current
    line, slot [current_line - starting_line - 1]; for line numbers in the
    size_t range it succeeds exactly when the current line is one of the
    frame's lines [starting_line + 1 .. starting_line + n], where [n] is its
    number of line slots, and otherwise throws [std::out_of_range] (the
    index wraps around for lines at or above the first one). *)
Theorem finish_line_in_range_iff fr e m t rest :
  last_instruction_ m = kLine -> frame_stack_ m = t :: rest ->
  (0 <= fs_starting_line t)%Z -> (0 <= fs_current_line t < 2^64)%Z ->
  (fs_starting_line t + Z.of_nat (length (fs_lines t)) < 2^64)%Z ->
  (finish fr e m = Err OutOfRange <->
   ~ (fs_starting_line t < fs_current_line t
        <= fs_starting_line t + Z.of_nat (length (fs_lines t)))%Z) /\
  ((fs_starting_line t < fs_current_line t
      <= fs_starting_line t + Z.of_nat (length (fs_lines t)))%Z ->
   finish fr e m =
     Ok (set_stack (mkFrame (fs_starting_line t) (fs_current_line t) (fs_key t)
                      (alter (add_internal e)
                         (Z.to_nat (fs_current_line t - fs_starting_line t - 1))
                         (fs_lines t))
                      (fs_internal t) :: rest) m)).
Proof.
  intros Hl Hst Hs Hc Hn.
  destruct (line_index_range t Hs Hc Hn) as [Hiff Heq].
  assert (Hf : finish fr e m =
               if decide (line_index t < Z.of_nat (length (fs_lines t)))%Z
               then Ok (set_stack (line_upd (add_internal e) t :: rest) m)
               else Err OutOfRange).
  { unfold finish. rewrite Hl. unfold finish_line, modify_top. rewrite Hst.
    unfold update_current_line, vec_at_update_size_t.
    destruct (decide _); reflexivity. }
  split.
  - rewrite Hf. destruct (decide _) as [Hi|Hi]; split; intros H.
    + discriminate.
    + exfalso. apply H. apply Hiff. exact Hi.
    + intros Hr. apply Hi. apply Hiff. exact Hr.
    + reflexivity.
  - intros Hr. rewrite Hf. rewrite decide_True by (apply Hiff; exact Hr).
    unfold line_upd. rewrite Heq by lia. reflexivity.
Qed.

Lemma finish_line_in_range_iff_witness :
  exists m1,
    finish (fr_f 11) 5 C2_m1 = Ok m1 /\
    finish (fr_f 11) 5 C2_m1 <> Err OutOfRange.
Proof.
  assert (Hl : last_instruction_ C2_m1 = kLine) by (vm_compute; reflexivity).
  assert (Hs : frame_stack_ C2_m1 = [C2_caller]) by (vm_compute; reflexivity).
  destruct (finish_line_in_range_iff (fr_f 11) 5 C2_m1 C2_caller [] Hl Hs)
    as [H1 H2]; try (cbv [C2_caller fs_starting_line fs_current_line fs_lines];
                     simpl; lia).
  assert (Hr : (fs_starting_line C2_caller < fs_current_line C2_caller
                <= fs_starting_line C2_caller + Z.of_nat (length (fs_lines C2_caller)))%Z)
    by (cbv [C2_caller fs_starting_line fs_current_line fs_lines]; simpl; lia).
  eexists. split; [exact (H2 Hr)|].
  intros He. apply H1 in He. exact (He Hr).
Defined.

(** ** What a dispatch keeps *)

Lemma pop_frame_shape m m' :
  pop_frame m = Ok m' ->
  exists t rest r',
    frame_stack_ m = t :: rest /\ drop 1 (frame_stack_ m') = drop 1 rest /\
    functions_ m' = <[fs_key t := r']> (functions_ m) /\
    c_functions_ m' = c_functions_ m /\
    last_instruction_ m' = last_instruction_ m /\ last_c_name_ m' = last_c_name_ m.
Proof.
  unfold pop_frame. destruct (frame_stack_ m) as [|t rest] eqn:Es; [discriminate|].
  intros H. apply bind_Ok_inv in H as (r & _ & H).
  apply bind_Ok_inv in H as (r' & _ & H).
  exists t, rest, r'. split; [done|].
  destruct rest as [|t2 rest'].
  - injection H as <-. done.
  - apply modify_top_Ok in H as (t0 & r1 & t' & Hs' & _ & ->).
    simpl in Hs'. injection Hs' as <- <-. done.
Qed.

Definition finish_depth (m : Module) : nat :=
  match last_instruction_ m with kReturn => 2 | _ => 1 end.

Lemma insert_is_Some {V} (mp : gmap code V) k v c :
  is_Some (mp !! c) -> is_Some (<[k:=v]> mp !! c).
Proof.
  intros Hc. destruct (decide (k = c)) as [<-|Hne].
  - rewrite lookup_insert_eq. eauto.
  - rewrite lookup_insert_ne by done. exact Hc.
Qed.

Lemma insert_is_Some_str {V} (mp : gmap string V) k v c :
  is_Some (mp !! c) -> is_Some (<[k:=v]> mp !! c).
Proof.
  intros Hc. destruct (decide (k = c)) as [<-|Hne].
  - rewrite lookup_insert_eq. eauto.
  - rewrite lookup_insert_ne by done. exact Hc.
Qed.

Lemma finish_keeps fr e m m1 :
  finish fr e m = Ok m1 ->
  last_instruction_ m1 = last_instruction_ m /\
  last_c_name_ m1 = last_c_name_ m /\
  (forall c, is_Some (functions_ m !! c) -> is_Some (functions_ m1 !! c)) /\
  (forall k, is_Some (c_functions_ m !! k) -> is_Some (c_functions_ m1 !! k)) /\
  drop 1 (frame_stack_ m1) = drop (finish_depth m) (frame_stack_ m).
Proof.
  unfold finish, finish_depth, finish_origin.
  destruct (last_instruction_ m) eqn:El; intros H;
    try (injection H as <-; rewrite El; done).
  - unfold finish_line in H. destruct (frame_stack_ m) as [|t rest] eqn:Es.
    + injection H as <-. rewrite El, Es. done.
    + apply modify_top_Ok in H as (t0 & r0 & t' & Hs & _ & ->).
      rewrite Es in Hs. injection Hs as <- <-. simpl. rewrite El. done.
  - unfold finish_call, map_at in H.
    destruct (functions_ m !! f_code fr) as [f|]; [|discriminate].
    injection H as <-. simpl. rewrite El.
    split; [done|]. split; [done|]. split; [|done].
    intros c. apply insert_is_Some.
  - unfold finish_return in H. apply bind_Ok_inv in H as (m2 & H2 & H).
    apply modify_top_Ok in H2 as (t & rest & t1 & Hs & _ & ->).
    apply pop_frame_shape in H as (t0 & rest0 & r' & Hs' & Hd & Hf & Hc & Hl & Hn).
    simpl in *. injection Hs' as <- <-. rewrite Hs, Hl, Hn, Hf, Hc, El.
    split; [done|]. split; [done|]. split; [intros c; apply insert_is_Some|].
    split; [done|]. rewrite Hd. destruct rest; reflexivity.
  - unfold finish_ccall, map_at in H.
    destruct (c_functions_ m !! last_c_name_ m) as [cf|]; [|discriminate].
    simpl in H. apply modify_top_Ok in H as (t & rest & t' & Hs & _ & ->).
    simpl in *. rewrite Hs, El.
    split; [done|]. split; [done|]. split; [done|].
    split; [intros k; apply insert_is_Some_str|done].
  - unfold finish_creturn in H.
    apply modify_top_Ok in H as (t & rest & t' & Hs & _ & ->). simpl.
    rewrite Hs, El. done.
Qed.

Lemma begin_keeps w fr a m :
  (forall c r, functions_ m !! c = Some r -> functions_ (begin w fr a m) !! c = Some r) /\
  (forall k b, c_functions_ m !! k = Some b ->
     c_functions_ (begin w fr a m) !! k = Some b) /\
  exists pre, frame_stack_ (begin w fr a m) = pre ++ drop 1 (frame_stack_ m).
Proof.
  assert (Hsame : exists pre, frame_stack_ m = pre ++ drop 1 (frame_stack_ m)).
  { exists (take 1 (frame_stack_ m)). by rewrite take_drop. }
  destruct w; cbn [begin]; try (split; [done|]; split; [done|]; exact Hsame).
  - rewrite profile_call_eq. simpl. split; [|split].
    + intros c r Hc. unfold callee_record.
      destruct (decide (f_code fr = c)) as [<-|Hne].
      * rewrite lookup_insert_eq, Hc. reflexivity.
      * rewrite lookup_insert_ne by done. exact Hc.
    + done.
    + destruct Hsame as [pre Hp]. exists (callee_frame m fr :: pre).
      rewrite Hp at 1. reflexivity.
  - unfold profile_line. simpl.
    destruct (frame_stack_ m) as [|t rest] eqn:Es; simpl;
      (split; [done|]; split; [done|]).
    + exists []. simpl. rewrite ?Es. reflexivity.
    + eexists [_]. simpl. rewrite ?Es. reflexivity.
  - unfold profile_c_call, add_c_function. simpl.
    destruct (c_functions_ m !! obj_str a) eqn:E; simpl;
      (split; [done|]; split; [|exact Hsame]).
    + done.
    + intros k b Hk. destruct (decide (obj_str a = k)) as [<-|Hne].
      * congruence.
      * rewrite lookup_insert_ne by done. exact Hk.
Qed.

(** A dispatch never modifies or removes a frame below the top one, or
    below the top two when its finish phase pops the frame of a preceding
    Return: those frames stay, unchanged, at the bottom of the stack. *)
Theorem profile_keeps_deeper_frames w fr a e m m' :
  profile w fr a e m = Ok m' ->
  drop (finish_depth m) (frame_stack_ m) `suffix_of` frame_stack_ m'.
Proof.
  intros H. apply profile_Ok_inv in H as (m1 & Hf & ->).
  destruct (finish_keeps _ _ _ _ Hf) as (_ & _ & _ & _ & Hd).
  destruct (begin_keeps w fr a m1) as (_ & _ & pre & Hp).
  rewrite <- Hd. exists pre. exact Hp.
Qed.

Lemma profile_keeps_deeper_frames_witness :
  exists m', profile PyTrace_RETURN (fr_f 11) no_arg 2 X_m_call = Ok m' /\
    drop (finish_depth X_m_call) (frame_stack_ X_m_call) `suffix_of` frame_stack_ m'.
Proof.
  assert (H : profile PyTrace_RETURN (fr_f 11) no_arg 2 X_m_call =
              Ok (ok_or X_m_call (profile PyTrace_RETURN (fr_f 11) no_arg 2 X_m_call)))
    by (vm_compute; reflexivity).
  eexists. split; [exact H|]. exact (profile_keeps_deeper_frames _ _ _ _ _ _ H).
Defined.

(** No dispatch removes an interpreted or a foreign record, and its begin
    phase never changes one: a repeated Call of a function, or a repeated
    foreign call of the same name, does not reset the accumulated record.
    Records change only in the finish phase. *)
Theorem profile_never_resets_records w fr a e m m' :
  profile w fr a e m = Ok m' ->
  exists m1, finish fr e m = Ok m1 /\
    (forall c r, functions_ m1 !! c = Some r -> functions_ m' !! c = Some r) /\
    (forall k b, c_functions_ m1 !! k = Some b -> c_functions_ m' !! k = Some b) /\
    (forall c, is_Some (functions_ m !! c) -> is_Some (functions_ m' !! c)) /\
    (forall k, is_Some (c_functions_ m !! k) -> is_Some (c_functions_ m' !! k)).
Proof.
  intros H. apply profile_Ok_inv in H as (m1 & Hf & ->).
  destruct (finish_keeps _ _ _ _ Hf) as (_ & _ & Hfk & Hck & _).
  destruct (begin_keeps w fr a m1) as (Hb1 & Hb2 & _).
  exists m1. split; [exact Hf|]. split; [exact Hb1|]. split; [exact Hb2|].
  split.
  - intros c Hc. destruct (Hfk c Hc) as [r Hr]. eexists. exact (Hb1 _ _ Hr).
  - intros k Hk. destruct (Hck k Hk) as [b Hb]. eexists. exact (Hb2 _ _ Hb).
Qed.

Lemma profile_never_resets_records_witness :
  exists m' m1, profile PyTrace_CALL (fr_f 10) no_arg 4 X_m_pop = Ok m' /\
    finish (fr_f 10) 4 X_m_pop = Ok m1 /\
    (forall c r, functions_ m1 !! c = Some r -> functions_ m' !! c = Some r).
Proof.
  assert (H : profile PyTrace_CALL (fr_f 10) no_arg 4 X_m_pop =
              Ok (ok_or X_m_pop (profile PyTrace_CALL (fr_f 10) no_arg 4 X_m_pop)))
    by (vm_compute; reflexivity).
  destruct (profile_never_resets_records _ _ _ _ _ _ H) as (m1 & H1 & H2 & _).
  eexists _, m1. split; [exact H|]. split; [exact H1|]. exact H2.
Defined.

(** ** Lookups that cannot fail in reachable states *)

Lemma reachable_ccall_name insp m :
  reachable insp m -> last_instruction_ m = kCCall ->
  is_Some (c_functions_ m !! last_c_name_ m).
Proof.
  induction 1 as [| m _ IH | m _ IH | ev m m' _ IH H]; try discriminate.
  - exact IH.
  - unfold deliver in H. destruct (profiling m); [|injection H as <-; exact IH].
    apply profile_Ok_inv in H as (m1 & Hf & ->).
    destruct (finish_keeps _ _ _ _ Hf) as (Hl & Hn & _ & Hck & _).
    assert (IH1 : last_instruction_ m1 = kCCall -> is_Some (c_functions_ m1 !! last_c_name_ m1)).
    { intros H1. rewrite Hn. apply Hck, IH. congruence. }
    destruct (ev_what ev); cbn [begin]; try exact IH1;
      try (unfold profile_call, profile_return, profile_c_return; discriminate).
    + unfold profile_line. simpl. destruct (frame_stack_ m1); discriminate.
    + intros _. destruct (profile_c_call_fields (ev_arg ev) m1) as (_ & _ & _ & -> & Hs).
      exact Hs.
Qed.

(** In every reachable state whose previous kind is a foreign call, the
    foreign record named by [last_c_name_] exists, so the lookup
    [c_functions_.at(last_c_name_)] of the ForeignCall finish rule never
    throws: the rule adds the interval to that record and then only the
    access to the top frame's current line can fail. *)
Theorem finish_ccall_record_found insp fr e m :
  reachable insp m -> last_instruction_ m = kCCall ->
  exists cf, c_functions_ m !! last_c_name_ m = Some cf /\
    finish fr e m =
      modify_top (update_current_line (add_external e))
        (set_c_functions (<[last_c_name_ m := BaseFunction_add_elapsed_internal e cf]>
                            (c_functions_ m)) m).
Proof.
  intros Hr Hl. destruct (reachable_ccall_name insp m Hr Hl) as [cf Hcf].
  exists cf. split; [exact Hcf|].
  unfold finish. rewrite Hl. unfold finish_ccall, map_at. rewrite Hcf. reflexivity.
Qed.

(** [main] is on line 2 and has just called [len]. *)
Definition X_m_ccall : Module :=
  ok_or demo_started (run [ev PyTrace_CALL (fr_main 1) 0; ev PyTrace_LINE (fr_main 2) 1;
                           mkEvent PyTrace_C_CALL (fr_main 2) len_obj 1] demo_started).

Lemma finish_ccall_record_found_witness :
  reachable demo_source X_m_ccall /\ last_instruction_ X_m_ccall = kCCall /\
  exists cf, c_functions_ X_m_ccall !! last_c_name_ X_m_ccall = Some cf.
Proof.
  assert (Hr : reachable demo_source X_m_ccall).
  { apply (run_reachable demo_source
             [ev PyTrace_CALL (fr_main 1) 0; ev PyTrace_LINE (fr_main 2) 1;
              mkEvent PyTrace_C_CALL (fr_main 2) len_obj 1] demo_started).
    - apply reach_start, reach_new.
    - vm_compute; reflexivity. }
  assert (Hl : last_instruction_ X_m_ccall = kCCall) by (vm_compute; reflexivity).
  destruct (finish_ccall_record_found demo_source (fr_main 2) 3 X_m_ccall Hr Hl)
    as (cf & Hcf & _).
  split; [exact Hr|]. split; [exact Hl|]. exists cf. exact Hcf.
Defined.

Lemma fold_lines_frame_Ok m t r x :
  store_ok m -> t ∈ frame_stack_ m -> functions_ m !! fs_key t = Some r ->
  exists r', fold_lines 0 (fs_lines t) (Function_add_overhead x r) = Ok r'.
Proof.
  intros [Hrec Hfr] Ht Hk.
  destruct (fs_lines t) as [|l ls] eqn:El; [eexists; reflexivity|].
  rewrite <- El.
  rewrite Forall_forall in Hfr. destruct (Hfr t Ht) as (_ & Hlen & _).
  destruct (Hrec _ _ Hk) as (Hl & H1 & H2).
  assert (Hn : (0 < length (fs_lines t))%nat) by (rewrite El; simpl; lia).
  destruct (fold_lines_sums 0 (fs_lines t) (Function_add_overhead x r))
    as (r' & Hf & _); simpl; [rewrite H1, Hl, <- Hlen; exact Hn
                             |rewrite H2, Hl, <- Hlen; exact Hn|].
  exists r'. exact Hf.
Qed.

(** In every reachable state, the pop run by the finish phase after a
    Return never fails on the record lookup [functions_.at(frame.key())] or
    on the fold of the frame's lines: with a frame on the stack it fails
    only when a caller frame remains and the caller's current-line index is
    out of range (an empty stack is [C7]'s case). *)
Theorem finish_return_pop_safe insp fr e m t rest :
  reachable insp m -> last_instruction_ m = kReturn -> frame_stack_ m = t :: rest ->
  (rest = [] -> exists m1, finish fr e m = Ok m1) /\
  (forall t2 rest', rest = t2 :: rest' ->
     (exists m1, finish fr e m = Ok m1) <->
     (line_index t2 < Z.of_nat (length (fs_lines t2)))%Z).
Proof.
  intros Hr Hl Hs.
  pose proof (reachable_store_ok insp m Hr) as Hok.
  assert (Hin : t ∈ frame_stack_ m) by (rewrite Hs; left).
  destruct Hok as [Hrec Hfr].
  assert (Hk : is_Some (functions_ m !! fs_key t)).
  { rewrite Forall_forall in Hfr. exact (proj2 (proj2 (Hfr t Hin))). }
  destruct Hk as [r Hk].
  destruct (fold_lines_frame_Ok m t r (fs_internal t + e) (conj Hrec Hfr) Hin Hk)
    as [r' Hf].
  split.
  - intros ->. unfold finish. rewrite Hl. unfold finish_return, modify_top.
    rewrite Hs. simpl. unfold pop_frame, map_at. simpl. rewrite Hk. simpl.
    change (fold_lines 0 (fs_lines t) (Function_add_overhead (fs_internal t + e) r))
      with (fold_lines 0 (fs_lines t) (Function_add_overhead (fs_internal t + e) r)).
    rewrite Hf. eexists. reflexivity.
  - intros t2 rest' ->. split.
    + intros [m1 H]. unfold finish in H. rewrite Hl in H.
      unfold finish_return, modify_top in H. rewrite Hs in H. simpl in H.
      unfold pop_frame, map_at in H. simpl in H. rewrite Hk in H. simpl in H.
      apply bind_Ok_inv in H as (r'' & _ & H).
      apply modify_top_Ok in H as (t0 & r0 & t' & Hs' & Ht & _).
      simpl in Hs'. injection Hs' as <- <-.
      apply update_current_line_Ok in Ht as [Hi _]. exact Hi.
    + intros Hi. eexists.
      exact (finish_return_two fr e m t t2 rest' r r' Hl Hs Hk Hf Hi).
Qed.

Lemma finish_return_pop_safe_witness :
  reachable demo_source X_m_pop /\ last_instruction_ X_m_pop = kReturn /\
  exists t t2, frame_stack_ X_m_pop = [t; t2] /\
    (line_index t2 < Z.of_nat (length (fs_lines t2)))%Z /\
    exists m1, finish (fr_main 3) 1 X_m_pop = Ok m1.
Proof.
  assert (Hr : reachable demo_source X_m_pop).
  { apply (run_reachable demo_source
             [ev PyTrace_CALL (fr_main 1) 0; ev PyTrace_LINE (fr_main 2) 1;
              ev PyTrace_CALL (fr_f 10) 0; ev PyTrace_LINE (fr_f 11) 5;
              ev PyTrace_LINE (fr_f 12) 3; ev PyTrace_RETURN (fr_f 12) 2] demo_started).
    - apply reach_start, reach_new.
    - vm_compute; reflexivity. }
  assert (Hl : last_instruction_ X_m_pop = kReturn) by (vm_compute; reflexivity).
  assert (Hs : exists t t2, frame_stack_ X_m_pop = [t; t2]).
  { eexists _, _. vm_compute. reflexivity. }
  destruct Hs as (t & t2 & Hs).
  assert (Hi : (line_index t2 < Z.of_nat (length (fs_lines t2)))%Z).
  { assert (Ht2 : [t; t2] !! 1%nat = Some t2) by reflexivity.
    rewrite <- Hs in Ht2. vm_compute in Ht2. injection Ht2 as <-.
    vm_compute. reflexivity. }
  destruct (finish_return_pop_safe demo_source (fr_main 3) 1 X_m_pop t [t2] Hr Hl Hs)
    as [_ H2].
  split; [exact Hr|]. split; [exact Hl|]. exists t, t2.
  split; [exact Hs|]. split; [exact Hi|]. apply (H2 t2 [] eq_refl). exact Hi.
Defined.

(** After a Call, the finish phase looks the incoming frame's code up in the
    record store: it throws [std::out_of_range] exactly when that code has
    no record.  In a reachable state this cannot happen for the code of any
    frame on the stack (in particular the frame the Call pushed): the
    record's overhead grows by the interval and nothing else changes. *)
Theorem finish_call_lookup insp fr e m :
  reachable insp m -> last_instruction_ m = kCall ->
  (finish fr e m = Err OutOfRange <-> functions_ m !! f_code fr = None) /\
  (forall t, t ∈ frame_stack_ m -> fs_key t = f_code fr ->
     exists r, functions_ m !! f_code fr = Some r /\
       finish fr e m =
         Ok (set_functions (<[f_code fr := Function_add_overhead e r]> (functions_ m)) m)).
Proof.
  intros Hr Hl.
  assert (Hf : forall r, functions_ m !! f_code fr = Some r ->
            finish fr e m =
              Ok (set_functions (<[f_code fr := Function_add_overhead e r]> (functions_ m)) m)).
  { intros r Hk. unfold finish. rewrite Hl. unfold finish_call, map_at.
    rewrite Hk. reflexivity. }
  split.
  - split.
    + intros H. destruct (functions_ m !! f_code fr) as [r|] eqn:Hk; [|reflexivity].
      rewrite (Hf r eq_refl) in H. discriminate.
    + intros Hk. unfold finish. rewrite Hl. unfold finish_call, map_at.
      rewrite Hk. reflexivity.
  - intros t Ht Hkey.
    destruct (reachable_store_ok insp m Hr) as [_ Hfr].
    rewrite Forall_forall in Hfr. destruct (Hfr t Ht) as (_ & _ & [r Hk]).
    rewrite Hkey in Hk. exists r. split; [exact Hk|]. exact (Hf r Hk).
Qed.

Lemma finish_call_lookup_witness :
  reachable demo_source X_m_call /\ last_instruction_ X_m_call = kCall /\
  exists t, t ∈ frame_stack_ X_m_call /\ fs_key t = f_code (fr_f 10) /\
  exists r, finish (fr_f 10) 2 X_m_call =
    Ok (set_functions (<[f_code (fr_f 10) := Function_add_overhead 2 r]>
                         (functions_ X_m_call)) X_m_call).
Proof.
  assert (Hr : reachable demo_source X_m_call).
  { apply (run_reachable demo_source
             [ev PyTrace_CALL (fr_main 1) 0; ev PyTrace_LINE (fr_main 2) 1;
              ev PyTrace_CALL (fr_f 10) 7] demo_started).
    - apply reach_start, reach_new.
    - vm_compute; reflexivity. }
  assert (Hl : last_instruction_ X_m_call = kCall) by (vm_compute; reflexivity).
  assert (Hs : exists t rest, frame_stack_ X_m_call = t :: rest /\ fs_key t = f_code (fr_f 10)).
  { eexists _, _. split; [vm_compute; reflexivity|]. vm_compute. reflexivity. }
  destruct Hs as (t & rest & Hs & Hkey).
  assert (Ht : t ∈ frame_stack_ X_m_call) by (rewrite Hs; left).
  destruct (finish_call_lookup demo_source (fr_f 10) 2 X_m_call Hr Hl) as [_ H2].
  destruct (H2 t Ht Hkey) as (r & _ & Hf).
  split; [exact Hr|]. split; [exact Hl|]. exists t. split; [exact Ht|].
  split; [exact Hkey|]. exists r. exact Hf.
Defined.

(** ** The report never throws in reachable states *)

Lemma vec_at_lt {A} (i : nat) (v : list A) :
  (i < length v)%nat -> exists x, vec_at i v = Ok x.
Proof.
  intros Hi. destruct (lookup_lt_is_Some_2 v i Hi) as [x Hx].
  exists x. unfold vec_at. rewrite Hx. reflexivity.
Qed.

Lemma dump_lines_Ok fmt n i f :
  (i + n <= length (fn_line_time f))%nat ->
  (i + n <= length (fn_line_time_internal f))%nat ->
  (i + n <= length (fn_lines f))%nat ->
  exists ls, dump_lines fmt n i f = Ok ls /\ length ls = n.
Proof.
  revert i. induction n as [|n IH]; intros i H1 H2 H3.
  - exists []. split; reflexivity.
  - destruct (vec_at_lt i (fn_line_time f)) as [x1 E1]; [lia|].
    destruct (vec_at_lt i (fn_line_time_internal f)) as [x2 E2]; [lia|].
    destruct (vec_at_lt i (fn_lines f)) as [x3 E3]; [lia|].
    destruct (IH (S i)) as (ls & Hls & Hlen); [lia|lia|lia|].
    simpl. rewrite E1, E2, E3. simpl. rewrite Hls. simpl.
    eexists. split; [reflexivity|]. simpl. rewrite Hlen. reflexivity.
Qed.

(** The number of lines written for a list of records: a header line and
    one line per source line, for each. *)
Definition report_lines (fs : list (code * Function)) : nat :=
  foldr (fun kv acc => S (length (fn_lines kv.2)) + acc)%nat 0%nat fs.

Lemma dump_functions_Ok fmt fs :
  Forall (fun kv => length (fn_line_time kv.2) = length (fn_lines kv.2) /\
                    length (fn_line_time_internal kv.2) = length (fn_lines kv.2)) fs ->
  exists ss, dump_functions fmt fs = Ok ss /\ length ss = report_lines fs.
Proof.
  induction 1 as [|[c f] fs [H1 H2] _ IH].
  - exists []. split; reflexivity.
  - destruct IH as (ss & Hss & Hlen).
    destruct (dump_lines_Ok fmt (length (fn_lines f)) 0 f) as (ls & Hls & Hl);
      simpl in *; [lia|lia|lia|].
    rewrite Hls. simpl. rewrite Hss. simpl. eexists. split; [reflexivity|].
    simpl. rewrite length_app. simpl. rewrite Hl, Hlen. reflexivity.
Qed.

(** In every reachable state [Module::dump] runs to completion (none of its
    [at] accesses throws) and returns 0, having written one header per
    record followed by one line per source line of that record, then one
    line per foreign record. *)
Theorem dump_reachable_complete insp fmt p m :
  reachable insp m ->
  exists ws, dump fmt p m = Ok (ws, 0%Z) /\
    length ws = (report_lines (map_to_list (functions_ m)) + size (c_functions_ m))%nat.
Proof.
  intros Hr. destruct (reachable_store_ok insp m Hr) as [Hrec _].
  destruct (dump_functions_Ok fmt (map_to_list (functions_ m))) as (ss & Hss & Hlen).
  { apply Forall_forall. intros [c f] Hin. apply elem_of_map_to_list in Hin.
    destruct (Hrec c f Hin) as (_ & H1 & H2). split; assumption. }
  unfold dump. rewrite Hss. simpl. eexists. split; [reflexivity|].
  rewrite length_map, length_app, Hlen. unfold dump_c_functions.
  rewrite length_map, length_map_to_list. reflexivity.
Qed.

Lemma dump_reachable_complete_witness :
  reachable demo_source X_m_pop /\
  exists ws, dump fmt_demo "out.txt" X_m_pop = Ok (ws, 0%Z) /\ length ws = 6%nat.
Proof.
  assert (Hr : reachable demo_source X_m_pop).
  { apply (run_reachable demo_source
             [ev PyTrace_CALL (fr_main 1) 0; ev PyTrace_LINE (fr_main 2) 1;
              ev PyTrace_CALL (fr_f 10) 0; ev PyTrace_LINE (fr_f 11) 5;
              ev PyTrace_LINE (fr_f 12) 3; ev PyTrace_RETURN (fr_f 12) 2] demo_started).
    - apply reach_start, reach_new.
    - vm_compute; reflexivity. }
  destruct (dump_reachable_complete demo_source fmt_demo "out.txt" X_m_pop Hr)
    as (ws & Hd & Hlen).
  split; [exact Hr|]. exists ws. split; [exact Hd|].
  rewrite Hlen. vm_compute. reflexivity.
Defined.

(** ** Accumulated times stay non-negative *)

Definition nonnegZ (l : list Z) : Prop := Forall (fun x => 0 <= x)%Z l.

Definition record_nonneg (r : Function) : Prop :=
  (0 <= fn_internal_time r)%Z /\ nonnegZ (fn_line_time r) /\
  nonnegZ (fn_line_time_internal r).

Definition line_nonneg (l : LineState) : Prop :=
  (0 <= ls_internal l)%Z /\ (0 <= ls_external l)%Z.

Definition frame_nonneg (t : FrameState) : Prop :=
  (0 <= fs_internal t)%Z /\ Forall line_nonneg (fs_lines t).

(** Every duration the module holds: record overheads and line vectors,
    foreign-record times, and the frames' own and per-line times. *)
Definition times_nonneg (m : Module) : Prop :=
  map_Forall (fun _ r => record_nonneg r) (functions_ m) /\
  map_Forall (fun _ cf => 0 <= bf_internal_time cf)%Z (c_functions_ m) /\
  Forall frame_nonneg (frame_stack_ m).

Lemma Forall_alter_pres {A} (P : A -> Prop) (g : A -> A) i l :
  Forall P l -> (forall x, P x -> P (g x)) -> Forall P (alter g i l).
Proof.
  intros Hl Hg. revert i. induction Hl as [|x l Hx Hl IH]; intros i; [constructor|].
  destruct i; simpl; fold_alter; constructor; auto.
Qed.

Lemma vec_at_update_nonneg i d v v' :
  (0 <= d)%Z -> nonnegZ v -> vec_at_update (Z.add d) i v = Ok v' -> nonnegZ v'.
Proof.
  unfold vec_at_update. intros Hd Hv. destruct (decide _); [|discriminate].
  intros H. injection H as <-. apply Forall_alter_pres; [exact Hv|]. intros; lia.
Qed.

Lemma fold_lines_nonneg i ls f f' :
  record_nonneg f -> Forall line_nonneg ls -> fold_lines i ls f = Ok f' ->
  record_nonneg f'.
Proof.
  revert f. induction ls as [|l ls IH]; intros f Hf Hls H.
  - injection H as <-. exact Hf.
  - inversion Hls as [|? ? [Hi He] Hls']; subst. simpl in H.
    apply bind_Ok_inv in H as (f1 & H1 & H).
    apply bind_Ok_inv in H as (f2 & H2 & H).
    apply (IH f2); [|exact Hls'|exact H].
    destruct Hf as (Hf0 & Hf1 & Hf2).
    unfold Function_add_elapsed in H1. apply bind_Ok_inv in H1 as (lt & Hlt & H1).
    injection H1 as <-.
    unfold Function_add_elapsed_internal in H2. apply bind_Ok_inv in H2 as (lti & Hlti & H2).
    injection H2 as <-. simpl in Hlti.
    split; [exact Hf0|]. split.
    + exact (vec_at_update_nonneg _ _ _ _ He Hf1 Hlt).
    + exact (vec_at_update_nonneg _ _ _ _ Hi Hf2 Hlti).
Qed.

Lemma total_time_nonneg t : frame_nonneg t -> (0 <= total_time t)%Z.
Proof.
  intros [_ Hl]. unfold total_time.
  assert (G : forall ls acc, (0 <= acc)%Z -> Forall line_nonneg ls ->
            (0 <= foldl (fun result line => result + ls_internal line + ls_external line)
                    acc ls)%Z).
  { induction ls as [|l ls IH]; intros acc Ha Hls; simpl; [exact Ha|].
    inversion Hls as [|? ? [Hi He] Hls']; subst. apply IH; [lia|exact Hls']. }
  apply G; [lia|exact Hl].
Qed.

Lemma update_current_line_nonneg g t t' :
  (forall l, line_nonneg l -> line_nonneg (g l)) -> frame_nonneg t ->
  update_current_line g t = Ok t' -> frame_nonneg t'.
Proof.
  intros Hg [Hi Hl] H. apply update_current_line_Ok in H as [_ ->].
  split; [exact Hi|]. simpl. apply Forall_alter_pres; assumption.
Qed.

Lemma modify_top_nonneg g m m' :
  (forall t t', frame_nonneg t -> g t = Ok t' -> frame_nonneg t') ->
  times_nonneg m -> modify_top g m = Ok m' -> times_nonneg m'.
Proof.
  intros Hg (H1 & H2 & H3) H. apply modify_top_Ok in H as (t & rest & t' & Hs & Ht & ->).
  rewrite Hs in H3. inversion H3 as [|? ? Ht0 Hrest]; subst.
  split; [exact H1|]. split; [exact H2|]. simpl. constructor; [|exact Hrest].
  exact (Hg t t' Ht0 Ht).
Qed.

Lemma add_internal_nonneg e l : (0 <= e)%Z -> line_nonneg l -> line_nonneg (add_internal e l).
Proof. intros He [H1 H2]. split; simpl; lia. Qed.

Lemma add_external_nonneg e l : (0 <= e)%Z -> line_nonneg l -> line_nonneg (add_external e l).
Proof. intros He [H1 H2]. split; simpl; lia. Qed.

Lemma frame_add_internal_nonneg e t :
  (0 <= e)%Z -> frame_nonneg t -> frame_nonneg (frame_add_internal e t).
Proof. intros He [H1 H2]. split; simpl; [lia|exact H2]. Qed.

Lemma pop_frame_nonneg m m' :
  times_nonneg m -> pop_frame m = Ok m' -> times_nonneg m'.
Proof.
  intros (H1 & H2 & H3) H. unfold pop_frame in H.
  destruct (frame_stack_ m) as [|t rest] eqn:Es; [discriminate|].
  inversion H3 as [|? ? Ht Hrest]; subst.
  unfold map_at in H. destruct (functions_ m !! fs_key t) as [r|] eqn:Er; [|discriminate].
  simpl in H. apply bind_Ok_inv in H as (r' & Hr' & H).
  assert (Hnr : record_nonneg r') .
  { apply (fold_lines_nonneg 0 (fs_lines t) (Function_add_overhead (fs_internal t) r));
      [|exact (proj2 Ht)|exact Hr'].
    destruct (H1 _ _ Er) as (A & B & C). destruct Ht as [Ht0 _].
    split; [simpl; lia|]. split; assumption. }
  assert (Hm1 : times_nonneg
     (set_stack rest (set_functions (<[fs_key t := r']> (functions_ m)) m))).
  { split; [|split; [exact H2|exact Hrest]].
    simpl. apply map_Forall_insert_2; assumption. }
  destruct rest as [|t2 rest'].
  - injection H as <-. exact Hm1.
  - apply (modify_top_nonneg _ _ _ ) in H; [exact H| |exact Hm1].
    intros u u' Hu Hg.
    apply (update_current_line_nonneg (add_external (total_time t)) u u');
      [|exact Hu|exact Hg].
    intros l. apply add_external_nonneg, total_time_nonneg, Ht.
Qed.

Lemma finish_nonneg fr e m m1 :
  (0 <= e)%Z -> times_nonneg m -> finish fr e m = Ok m1 -> times_nonneg m1.
Proof.
  intros He Hm H. unfold finish in H.
  destruct (last_instruction_ m); try (injection H as <-; exact Hm).
  - unfold finish_line in H. destruct (frame_stack_ m) as [|? ?]; [injection H as <-; exact Hm|].
    apply (modify_top_nonneg _ _ _) in H; [exact H| |exact Hm].
    intros t t'. apply update_current_line_nonneg. intros ln. apply add_internal_nonneg, He.
  - unfold finish_call, map_at in H.
    destruct (functions_ m !! f_code fr) as [r|] eqn:Er; [|discriminate].
    simpl in H. injection H as <-. destruct Hm as (H1 & H2 & H3).
    split; [|split; assumption]. simpl. apply map_Forall_insert_2; [|exact H1].
    destruct (H1 _ _ Er) as (A & B & C). split; [simpl; lia|]. split; assumption.
  - unfold finish_return in H. apply bind_Ok_inv in H as (m0 & H0 & H).
    apply (pop_frame_nonneg m0); [|exact H].
    apply (modify_top_nonneg _ _ _) in H0; [exact H0| |exact Hm].
    intros t t' Ht Hg. injection Hg as <-. apply frame_add_internal_nonneg; assumption.
  - unfold finish_ccall, map_at in H.
    destruct (c_functions_ m !! last_c_name_ m) as [cf|] eqn:Ec; [|discriminate].
    simpl in H. apply (modify_top_nonneg _ _ _) in H; [exact H| |].
    + intros t t'. apply update_current_line_nonneg. intros ln. apply add_external_nonneg, He.
    + destruct Hm as (H1 & H2 & H3). split; [exact H1|]. split; [|exact H3].
      simpl. apply map_Forall_insert_2; [|exact H2]. simpl.
      pose proof (H2 _ _ Ec) as Hc. simpl in Hc. lia.
  - unfold finish_creturn in H. apply (modify_top_nonneg _ _ _) in H; [exact H| |exact Hm].
    intros t t' Ht Hg. injection Hg as <-. apply frame_add_internal_nonneg; assumption.
Qed.

Lemma begin_nonneg w fr a m : times_nonneg m -> times_nonneg (begin w fr a m).
Proof.
  intros (H1 & H2 & H3). destruct w; cbn [begin].
  - rewrite profile_call_eq. split; [|split; [exact H2|]]; simpl.
    + apply map_Forall_insert_2; [|exact H1]. unfold callee_record.
      destruct (functions_ m !! f_code fr) as [r|] eqn:Er; [exact (H1 _ _ Er)|].
      unfold Function_new. split; [simpl; lia|]. simpl.
      split; apply Forall_replicate; lia.
    + constructor; [|exact H3]. unfold callee_frame, FrameState_new.
      split; [simpl; lia|]. simpl. apply Forall_replicate. split; simpl; lia.
  - split; [exact H1|]. split; assumption.
  - unfold profile_line. simpl. destruct (frame_stack_ m) as [|t rest] eqn:Es;
      (split; [exact H1|]; split; [exact H2|]); simpl; rewrite ?Es; [exact H3|].
    inversion H3 as [|? ? [Ht0 Ht1] Hrest]; subst. constructor; [|exact Hrest].
    split; assumption.
  - split; [exact H1|]. split; assumption.
  - pose proof (profile_c_call_fields a m) as (Hs & Hf & _).
    split; [rewrite Hf; exact H1|]. split; [|rewrite Hs; exact H3].
    rewrite profile_c_call_c_functions.
    destruct (c_functions_ m !! obj_str a); [exact H2|].
    apply map_Forall_insert_2; [simpl; lia|exact H2].
  - split; [exact H1|]. split; assumption.
  - split; [exact H1|]. split; assumption.
  - split; [exact H1|]. split; assumption.
Qed.

(** As long as the clock never runs backwards (each dispatch's interval is
    non-negative), every duration the module accumulates stays
    non-negative across a dispatch: record overheads, both per-line
    vectors, foreign-record times, and the frames' own and per-line
    times, including the caller's external time that [pop_frame] adds
    through [total_time]. *)
Theorem profile_times_nonneg w fr a e m m' :
  (0 <= e)%Z -> times_nonneg m -> profile w fr a e m = Ok m' -> times_nonneg m'.
Proof.
  intros He Hm H. apply profile_Ok_inv in H as (m1 & Hf & ->).
  apply begin_nonneg. exact (finish_nonneg fr e m m1 He Hm Hf).
Qed.

Lemma profile_times_nonneg_witness :
  (0 <= 4)%Z /\ times_nonneg X_m_pop /\
  last_instruction_ X_m_pop = kReturn /\ length (frame_stack_ X_m_pop) = 2%nat /\
  profile PyTrace_LINE (fr_main 3) no_arg 4 X_m_pop =
    Ok (ok_or X_m_pop (profile PyTrace_LINE (fr_main 3) no_arg 4 X_m_pop)) /\
  times_nonneg (ok_or X_m_pop (profile PyTrace_LINE (fr_main 3) no_arg 4 X_m_pop)).
Proof.
  (* the dispatches that lead to [X_m_pop] all have non-negative intervals *)
  assert (G : forall evs m m', Forall (fun ev => 0 <= ev_elapsed ev)%Z evs ->
            times_nonneg m -> run evs m = Ok m' -> times_nonneg m').
  { induction evs as [|ev evs IH]; intros m m' He Hm H; simpl in H.
    - injection H as <-. exact Hm.
    - apply bind_Ok_inv in H as (m1 & H1 & H). inversion He as [|? ? He1 He2]; subst.
      apply (IH m1 m'); [exact He2| |exact H].
      unfold deliver in H1. destruct (profiling m); [|injection H1 as <-; exact Hm].
      exact (profile_times_nonneg _ _ _ _ m m1 He1 Hm H1). }
  assert (H0 : times_nonneg demo_started).
  { split; [apply map_Forall_empty|]. split; [apply map_Forall_empty|]. constructor. }
  assert (Hpop : times_nonneg X_m_pop).
  { apply (G [ev PyTrace_CALL (fr_main 1) 0; ev PyTrace_LINE (fr_main 2) 1;
              ev PyTrace_CALL (fr_f 10) 0; ev PyTrace_LINE (fr_f 11) 5;
              ev PyTrace_LINE (fr_f 12) 3; ev PyTrace_RETURN (fr_f 12) 2] demo_started);
      [repeat constructor; simpl; lia|exact H0|vm_compute; reflexivity]. }
  assert (He : (0 <= 4)%Z) by lia.
  assert (Hp : profile PyTrace_LINE (fr_main 3) no_arg 4 X_m_pop =
    Ok (ok_or X_m_pop (profile PyTrace_LINE (fr_main 3) no_arg 4 X_m_pop)))
    by (vm_compute; reflexivity).
  split; [exact He|]. split; [exact Hpop|].
  split; [vm_compute; reflexivity|]. split; [vm_compute; reflexivity|].
  split; [exact Hp|].
  exact (profile_times_nonneg PyTrace_LINE (fr_main 3) no_arg 4 X_m_pop _ He Hpop Hp).
Defined.

(** ** Restarting *)

(** After [start()], the first dispatch's finish phase does nothing (the
    previous kind is Origin): whatever kind was pending when profiling
    stopped is dropped, its interval is charged nowhere, and no frame is
    popped, even when a Return was the last event before [stop()]. *)
Theorem start_drops_pending_finish w fr a e m :
  profile w fr a e (start m) = Ok (begin w fr a (start m)) /\
  internal_total (begin w fr a (start m)) = internal_total m /\
  length (frame_stack_ (begin w fr a (start m))) =
    (length (frame_stack_ m) + pushes w)%nat.
Proof.
  split; [reflexivity|]. split.
  - rewrite begin_internal_total. reflexivity.
  - destruct (begin_fields w fr a (start m)) as [Hl _]. exact Hl.
Qed.
